(** * MkulimaLink: model monitoring and retraining pipeline

    A shallow embedding of [src/ai-ml/monitoring.py] (class [ModelMonitor])
    and the properties its specification states about it.

    Conventions of the embedding.
    - Floating-point values are idealised as exact rationals ([Q]); a
      computation whose numpy result would be [inf] or [nan] (a zero
      denominator, the mean of an empty array) yields [None].  Rounding is
      not modelled.
    - [async] methods are run to completion one after the other (the
      scheduler is a single cooperative loop), so they become computations
      in a state-and-exception monad over an explicit [World].
    - Python builtins and third-party libraries the class relies on
      ([str], [eval], [numpy.log], [numpy.sqrt], pandas' [describe],
      [to_json], [read_json], number formatting) and the per-family metric
      code no property below looks into are Section variables. *)

From Stdlib Require Import QArith Qabs ZArith Lia List String.
From stdpp Require Import base gmap strings list.
Import ListNotations.
Local Open Scope string_scope.

(** ** numpy on exact rationals *)

Module Np.

(** A float: [None] is a non-finite value ([inf] or [nan]). *)
Definition npfloat := option Q.

Definition div (x y : Q) : npfloat :=
  if Qeq_bool y 0 then None else Some (x / y)%Q.

Definition sum (xs : list Q) : Q := foldr Qplus 0%Q xs.

Definition of_nat (n : nat) : Q := inject_Z (Z.of_nat n).

(** [np.mean]: [nan] on an empty array, and on one holding a non-finite
    value. *)
Definition mean (xs : list npfloat) : npfloat :=
  match mapM id xs with
  | Some (q :: qs) => Some (sum (q :: qs) / of_nat (length (q :: qs)))%Q
  | _ => None
  end.

(** [np.diff]: out[i] = a[i+1] - a[i]. *)
Definition diff (xs : list Q) : list Q :=
  zip_with (fun x y => (y - x)%Q) xs (tail xs).

Definition gt0 (x : Q) : bool := if Qlt_le_dec 0 x then true else false.

Definition of_bool (b : bool) : Q := if b then 1%Q else 0%Q.

Definition qmin (x y : Q) : Q := if Qlt_le_dec y x then y else x.
Definition qmax (x y : Q) : Q := if Qlt_le_dec x y then y else x.

(** [np.min] / [np.max]: [None] is the ValueError raised on an empty
    array. *)
Definition min (xs : list Q) : option Q :=
  match xs with
  | [] => None
  | x :: xs' => Some (foldl qmin x xs')
  end.

Definition max (xs : list Q) : option Q :=
  match xs with
  | [] => None
  | x :: xs' => Some (foldl qmax x xs')
  end.

(** [np.linspace start stop num]: [num] evenly spaced samples, the
    end point included. *)
Definition linspace (start stop : Q) (num : nat) : list Q :=
  let step := ((stop - start) / of_nat (Nat.pred num))%Q in
  map (fun i => (start + of_nat i * step)%Q) (seq 0 num).

Definition count_lt (a : list Q) (e : Q) : nat :=
  length (List.filter (fun x => if Qlt_le_dec x e then true else false) a).

Definition count_le (a : list Q) (e : Q) : nat :=
  length (List.filter (fun x => if Qlt_le_dec e x then false else true) a).

(** numpy's [_search_sorted_inclusive a v]: for every edge but the last
    the number of samples strictly below it, for the last edge the number
    of samples at or below it. *)
Definition search_sorted_inclusive (a edges : list Q) : list nat :=
  match reverse edges with
  | [] => []
  | e_last :: rev_init =>
      map (count_lt a) (reverse rev_init) ++ [count_le a e_last]
  end.

Definition diff_counts (cum : list nat) : list Z :=
  zip_with (fun x y => (Z.of_nat y - Z.of_nat x)%Z) cum (tail cum).

(** [np.histogram a bins=edges density=True]: the counts are the
    differences of the cumulative counts, the density of a bin is
    count / width / total. *)
Definition histogram_density (a edges : list Q) : list Q :=
  let n := diff_counts (search_sorted_inclusive a edges) in
  let db := diff edges in
  let total := inject_Z (foldr Z.add 0%Z n) in
  zip_with (fun c w => (inject_Z c / w / total)%Q) n db.

End Np.

(** ** MetricEvaluator: price metrics *)

(** A [pandas.DataFrame] with numeric columns: its number of rows and its
    columns by name (every column has [df_len] values). *)
Record DataFrame := mkDF {
  df_len : nat;
  df_columns : list (string * list Q)
}.

(** Lookup in a dictionary kept as a list of items: the first entry with
    the key. *)
Fixpoint assoc {A : Type} (k : string) (l : list (string * A)) : option A :=
  match l with
  | [] => None
  | (k', v) :: l' => if String.eqb k k' then Some v else assoc k l'
  end.

Definition df_col (name : string) (df : DataFrame) : option (list Q) :=
  assoc name (df_columns df).

(** [df.empty]: no rows or no columns. *)
Definition df_empty (df : DataFrame) : bool :=
  match df_len df, df_columns df with
  | O, _ => true
  | _, [] => true
  | _, _ => false
  end.

(** A metrics dictionary: metric name to value, in insertion order. *)
Definition Metrics := list (string * Np.npfloat).

Definition eps_mape : Q := 1 # 10000000.

(** [np.mean(np.abs((actual - predicted) / (actual + 1e-7))) * 100] *)
Definition mape (actual predicted : list Q) : Np.npfloat :=
  (fun m => (m * 100)%Q) <$>
  Np.mean (zip_with (fun a p => Qabs <$> Np.div (a - p) (a + eps_mape))
             actual predicted).

(** The formula of the specification:
    mean(|actual - predicted| / (|actual| + eps)) * 100. *)
Definition mape_spec (actual predicted : list Q) : Np.npfloat :=
  (fun m => (m * 100)%Q) <$>
  Np.mean (zip_with (fun a p => Np.div (Qabs (a - p)) (Qabs a + eps_mape))
             actual predicted).

(** The formula with the denominator the code has:
    mean(|actual - predicted| / |actual + eps|) * 100. *)
Definition mape_abs_denominator (actual predicted : list Q) : Np.npfloat :=
  (fun m => (m * 100)%Q) <$>
  Np.mean (zip_with (fun a p => Np.div (Qabs (a - p)) (Qabs (a + eps_mape)))
             actual predicted).

Section PriceMetrics.

(** [numpy.sqrt] on a finite non-negative value. *)
Variable np_sqrt : Q -> Q.

Definition rmse (actual predicted : list Q) : Np.npfloat :=
  np_sqrt <$>
  Np.mean (zip_with (fun a p => Some ((a - p) ^ 2)%Q) actual predicted).

Definition directional_accuracy (actual predicted : list Q) : Np.npfloat :=
  (fun m => (m * 100)%Q) <$>
  Np.mean (zip_with
             (fun da dp => Some (Np.of_bool (eqb (Np.gt0 da) (Np.gt0 dp))))
             (Np.diff actual) (Np.diff predicted)).

Definition _calculate_price_metrics (data : DataFrame) : Metrics :=
  match df_col "actual_price" data, df_col "predicted_price" data with
  | Some actual, Some predicted =>
      [ ("mape", mape actual predicted);
        ("rmse", rmse actual predicted);
        ("directional_accuracy", directional_accuracy actual predicted);
        ("sample_count", Some (Np.of_nat (df_len data))) ]
  | _, _ => []
  end.

End PriceMetrics.

(** ** DriftDetector: Population Stability Index *)

Definition eps_psi : Q := 1 # 1000000.

Section Psi.

(** [numpy.log] on a finite positive value. *)
Variable np_log : Q -> Q.

(** The body of the [try] block; [None] is a raised exception. *)
Definition psi_body (expected actual : list Q) (bins : nat) : option Q :=
  e_min ← Np.min expected;
  a_min ← Np.min actual;
  e_max ← Np.max expected;
  a_max ← Np.max actual;
  let min_val := Np.qmin e_min a_min in
  let max_val := Np.qmax e_max a_max in
  if Qeq_bool min_val max_val then Some 0%Q
  else
    let bins_edges := Np.linspace min_val max_val (bins + 1) in
    let expected_dist :=
      map (fun d => (d + eps_psi)%Q) (Np.histogram_density expected bins_edges) in
    let actual_dist :=
      map (fun d => (d + eps_psi)%Q) (Np.histogram_density actual bins_edges) in
    Some (Np.sum (zip_with (fun a e => ((a - e) * np_log (a / e))%Q)
                    actual_dist expected_dist)).

(** [except Exception: return 0.0] *)
Definition _calculate_psi (expected actual : list Q) (bins : nat) : Q :=
  default 0%Q (psi_body expected actual bins).

End Psi.


(** ** The world the monitor runs in *)

#[local] Set Warnings "-register-all".

(** Python values that reach log records, notifications and the queue. *)
Inductive pyval :=
| VNone
| VBool (b : bool)
| VStr (s : string)
| VNum (x : Np.npfloat)
| VList (l : list pyval)
| VDict (items : list (string * pyval)).

(** A raised exception: its class name and its message ([str(e)]). *)
Record PyExc := mkExc { exc_type : string; exc_msg : string }.

(** An f-string: the literal text with [{}] for every interpolated value,
    and the values. *)
Record Text := mkText { template : string; args : list pyval }.

Inductive LogLevel := INFO | WARNING | ERROR.

(** One entry of [monitoring_results]; a key the dictionary does not have
    is [None]. *)
Record MonitoringResult := mkResult {
  status : string;
  sample_count : option nat;
  metrics : option Metrics;
  issues : option (list string);
  error : option string;
  needs_retraining : bool
}.

(** What the monitor does to its collaborators, besides the queue and the
    key-value store. *)
Inductive Event :=
| EvLog (lvl : LogLevel) (msg : Text)
| EvEmail (subject message : Text)          (* server.sendmail *)
| EvRedisSet (key value : string)           (* redis_client.set *)
| EvMlflowParam (key : Text) (value : string)
| EvDbInsert (table : string) (results : gmap string MonitoringResult)
| EvRunPipeline                             (* ml_pipeline.run_pipeline() *)
| EvExec (code : string).                   (* code run by the interpreter *)

Record World := mkWorld {
  redis_kv : gmap string string;     (* string keys of the Redis server *)
  retraining_queue : list string;    (* the list 'retraining_queue', left end first *)
  trace : list Event;                (* most recent first *)
  pipeline_runs : nat;               (* completed calls of run_pipeline *)
  now : string                       (* datetime.now().isoformat() *)
}.

(** What [ml_pipeline.run_pipeline()] does: return its result dictionary,
    or raise. *)
Inductive PipelineOutcome :=
| PipelineReturns (result : list (string * pyval))
| PipelineRaises (e : PyExc).

(** The collaborators, by their interface. *)
Record Env := mkEnv {
  np_sqrt : Q -> Q;
  np_log : Q -> Q;
  format_float : nat -> Q -> string;                  (* "{:.3f}" *)
  py_str : pyval -> string;                           (* str(x) *)
  py_eval : string -> World -> (PyExc + pyval) * World;  (* eval(s) *)
  fetch_predictions : string -> PyExc + DataFrame;    (* model_predictions, 7 days *)
  fetch_features : string -> nat -> PyExc + DataFrame;   (* model_features, n days *)
  describe : DataFrame -> DataFrame;                  (* df.describe() *)
  to_json : DataFrame -> string;
  read_json : string -> PyExc + DataFrame;
  _calculate_disease_metrics : DataFrame -> PyExc + Metrics;
  _calculate_recommendation_metrics : DataFrame -> PyExc + Metrics;
  _check_price_thresholds : Metrics -> PyExc + list string;
  _check_disease_thresholds : Metrics -> PyExc + list string;
  _check_recommendation_thresholds : Metrics -> PyExc + list string;
  run_pipeline : nat -> PipelineOutcome;              (* outcome of the n-th call *)
  sender_email : option string;                       (* os.getenv('SENDER_EMAIL') *)
  smtp_error : option PyExc;                          (* the SMTP dialogue fails *)
  db_insert_error : option PyExc                      (* the INSERT fails *)
}.

(** ** State and exceptions

    A computation transforms the world and returns a value or raises; what it
    did before raising stays done. *)

Definition M (A : Type) : Type := World -> (PyExc + A) * World.

Definition ret {A} (a : A) : M A := fun w => (inr a, w).

Definition raise {A} (e : PyExc) : M A := fun w => (inl e, w).

Definition bind {A B} (c : M A) (k : A -> M B) : M B :=
  fun w => match c w with
           | (inl e, w') => (inl e, w')
           | (inr a, w') => k a w'
           end.

(** [try: c  except Exception as e: h e] *)
Definition try_except {A} (c : M A) (h : PyExc -> M A) : M A :=
  fun w => match c w with
           | (inl e, w') => h e w'
           | (inr a, w') => (inr a, w')
           end.

Definition lift {A} (r : PyExc + A) : M A :=
  match r with inl e => raise e | inr a => ret a end.

Declare Scope py_scope.
Delimit Scope py_scope with py.
Notation "x <- c1 ;; c2" := (bind c1 (fun x => c2))
  (at level 20, c1 at level 99, c2 at level 200, only parsing) : py_scope.
Notation "c1 ;; c2" := (bind c1 (fun _ => c2))
  (at level 100, c2 at level 200, only parsing, right associativity) : py_scope.
Local Open Scope py_scope.

Definition emit (ev : Event) : M unit :=
  fun w => (inr tt, mkWorld (redis_kv w) (retraining_queue w) (ev :: trace w)
                      (pipeline_runs w) (now w)).

Definition log (lvl : LogLevel) (tpl : string) (vs : list pyval) : M unit :=
  emit (EvLog lvl (mkText tpl vs)).

Definition get_now : M string := fun w => (inr (now w), w).

Definition exc_val (e : PyExc) : pyval := VStr (exc_msg e).

(** *** Redis *)

(** The reply of a Redis read as a condition: [None] when [not reply]
    holds (no value, or empty bytes). *)
Definition truthy (reply : option string) : option string :=
  match reply with
  | None => None
  | Some s => if String.eqb s "" then None else Some s
  end.

Definition redis_get (key : string) : M (option string) :=
  fun w => (inr (redis_kv w !! key), w).

Definition redis_set (key value : string) : M unit :=
  fun w => (inr tt, mkWorld (<[key:=value]> (redis_kv w)) (retraining_queue w)
                      (EvRedisSet key value :: trace w) (pipeline_runs w) (now w)).

(** LPUSH: insert at the left end. *)
Definition redis_lpush (value : string) : M unit :=
  fun w => (inr tt, mkWorld (redis_kv w) (value :: retraining_queue w) (trace w)
                      (pipeline_runs w) (now w)).

(** RPOP: remove and return the element at the right end. *)
Definition redis_rpop : M (option string) :=
  fun w => match reverse (retraining_queue w) with
           | [] => (inr None, w)
           | x :: rev_rest =>
               (inr (Some x), mkWorld (redis_kv w) (reverse rev_rest) (trace w)
                                (pipeline_runs w) (now w))
           end.

(** ** ModelMonitor *)

(** [self.thresholds] *)
Definition thresholds : list (string * list (string * Q)) :=
  [ ("price_prediction",
      [("mape_threshold", 15 # 100); ("drift_threshold", 1 # 10);
       ("min_samples", 1000 # 1)]);
    ("disease_detection",
      [("accuracy_threshold", 85 # 100); ("min_samples", 500 # 1)]);
    ("recommendations",
      [("precision_threshold", 7 # 10); ("min_samples", 1000 # 1)]) ]%Q.

Definition key_error (k : string) : PyExc := mkExc "KeyError" k.

(** [d[k]] on a dictionary kept as a list of items. *)
Definition getitem {A} (d : list (string * A)) (k : string) : M A :=
  match assoc k d with
  | Some v => ret v
  | None => raise (key_error k)
  end.

(** [self.thresholds[model_name][name]] *)
Definition threshold (model_name name : string) : M Q :=
  t <- getitem thresholds model_name ;; getitem t name.

(** [job[k]] on whatever [eval] returned. *)
Definition py_getitem (v : pyval) (k : string) : M pyval :=
  match v with
  | VDict items => getitem items k
  | _ => raise (mkExc "TypeError" "object is not subscriptable by a string")
  end.

Definition monitored_models : list string :=
  ["price_prediction"; "disease_detection"; "recommendations"].

Definition lookup_threshold (model_name name : string) : PyExc + Q :=
  match assoc model_name thresholds with
  | None => inl (key_error model_name)
  | Some t => match assoc name t with
              | None => inl (key_error name)
              | Some q => inr q
              end
  end.

Definition pyval_is_str (v : pyval) (s : string) : bool :=
  match v with
  | VStr s' => String.eqb s' s
  | _ => false
  end.

Definition metrics_val (m : Metrics) : pyval :=
  VDict (map (fun kv => (fst kv, VNum (snd kv))) m).

Definition error_result (e : PyExc) : MonitoringResult :=
  {| status := "error"; sample_count := None; metrics := None; issues := None;
     error := Some (exc_msg e); needs_retraining := false |}.

Definition insufficient_data (n : nat) : MonitoringResult :=
  {| status := "insufficient_data"; sample_count := Some n; metrics := None;
     issues := Some []; error := None; needs_retraining := false |}.

Section ModelMonitor.

Variable env : Env.

Definition _send_alert_email (subject message : Text) : M unit :=
  try_except
    (match truthy (sender_email env) with
     | None => log WARNING "Email configuration not set, skipping alert" []
     | Some _ =>
         match smtp_error env with
         | Some e => raise e
         | None =>
             emit (EvEmail subject message) ;;
             log INFO ("Alert email sent: " ++ template subject) (args subject)
         end
     end)
    (fun e => log ERROR "Failed to send alert email: {}" [exc_val e]).

Definition _get_recent_predictions (model_name : string) : M DataFrame :=
  lift (fetch_predictions env model_name).

Definition _store_monitoring_results
    (results : gmap string MonitoringResult) : M unit :=
  try_except
    (match db_insert_error env with
     | Some e => raise e
     | None =>
         emit (EvDbInsert "model_monitoring" results) ;;
         log INFO "Monitoring results stored" []
     end)
    (fun e => log ERROR "Failed to store monitoring results: {}" [exc_val e]).

Definition baseline_key (model_name : string) : string :=
  "baseline_features:" ++ model_name.

Definition _store_baseline_features (model_name : string) : M unit :=
  try_except
    (df <- lift (fetch_features env model_name 30) ;;
     if df_empty df then ret tt
     else
       let stats := describe env df in
       redis_set (baseline_key model_name) (to_json env stats))
    (fun e => log ERROR "Error storing baseline features: {}" [exc_val e]).

Definition _calculate_current_feature_stats (model_name : string) : M DataFrame :=
  try_except
    (df <- lift (fetch_features env model_name 7) ;;
     ret (if df_empty df then mkDF 0 [] else describe env df))
    (fun e =>
       log ERROR "Error calculating current feature stats: {}" [exc_val e] ;;
       ret (mkDF 0 [])).

Definition drift_issue (feature : string) (psi : Q) : string :=
  "Feature drift in " ++ feature ++ ": PSI = " ++ format_float env 3 psi.

(** The [for feature in baseline_stats.columns] loop.  [issues] is the
    list bound before the [try]: the result is that list as the loop left
    it, with the exception that ended the loop, if one did. *)
Fixpoint drift_loop (model_name : string) (current_stats : DataFrame)
    (baseline_columns : list (string * list Q)) (issues : list string)
    : list string * option PyExc :=
  match baseline_columns with
  | [] => (issues, None)
  | (feature, baseline_values) :: rest =>
      match df_col feature current_stats with
      | None => drift_loop model_name current_stats rest issues
      | Some current_values =>
          let psi := _calculate_psi (np_log env) baseline_values current_values 10 in
          match lookup_threshold model_name "drift_threshold" with
          | inl e => (issues, Some e)
          | inr drift_threshold =>
              if Qlt_le_dec drift_threshold psi
              then drift_loop model_name current_stats rest
                     (issues ++ [drift_issue feature psi])%list
              else drift_loop model_name current_stats rest issues
          end
      end
  end.

(** Of the statements in the [try], [pd.read_json] and the threshold
    lookup of the loop can raise; either way the handler logs and the
    method returns [issues]. *)
Definition _check_feature_drift (model_name : string) : M (list string) :=
  baseline_data <- redis_get (baseline_key model_name) ;;
  match truthy baseline_data with
  | None =>
      _store_baseline_features model_name ;;
      ret []
  | Some baseline_data =>
      match read_json env baseline_data with
      | inl e =>
          log ERROR "Error checking feature drift: {}" [exc_val e] ;;
          ret []
      | inr baseline_stats =>
          current_stats <- _calculate_current_feature_stats model_name ;;
          match drift_loop model_name current_stats (df_columns baseline_stats) [] with
          | (issues, Some e) =>
              log ERROR "Error checking feature drift: {}" [exc_val e] ;;
              ret issues
          | (issues, None) => ret issues
          end
      end
  end.

(** The model-specific branch: [metrics] (if the branch bound it) and the
    issues of the threshold check. *)
Definition model_specific (model_name : string) (data : DataFrame)
    : M (option Metrics * list string) :=
  if String.eqb model_name "price_prediction" then
    let metrics := _calculate_price_metrics (np_sqrt env) data in
    issues <- lift (_check_price_thresholds env metrics) ;;
    ret (Some metrics, issues)
  else if String.eqb model_name "disease_detection" then
    metrics <- lift (_calculate_disease_metrics env data) ;;
    issues <- lift (_check_disease_thresholds env metrics) ;;
    ret (Some metrics, issues)
  else if String.eqb model_name "recommendations" then
    metrics <- lift (_calculate_recommendation_metrics env data) ;;
    issues <- lift (_check_recommendation_thresholds env metrics) ;;
    ret (Some metrics, issues)
  else ret (None, []).

Definition _monitor_single_model (model_name : string) : M MonitoringResult :=
  log INFO "Monitoring {} model" [VStr model_name] ;;
  predictions_data <- _get_recent_predictions model_name ;;
  min_samples <- lift (lookup_threshold model_name "min_samples") ;;
  if Qlt_le_dec (Np.of_nat (df_len predictions_data)) min_samples then
    ret (insufficient_data (df_len predictions_data))
  else
    specific <- model_specific model_name predictions_data ;;
    drift_issues <- _check_feature_drift model_name ;;
    let issues := (snd specific ++ drift_issues)%list in
    ret {| status := "completed";
           sample_count := Some (df_len predictions_data);
           metrics := Some (default [] (fst specific));
           issues := Some issues;
           error := None;
           needs_retraining := negb (Nat.eqb (length issues) 0) |}.

Definition _trigger_retraining (model_name : string)
    (monitoring_result : MonitoringResult) : M unit :=
  log INFO "Triggering retraining for {}" [VStr model_name] ;;
  try_except
    (found <- match issues monitoring_result with
              | Some l => ret l
              | None => raise (key_error "issues")
              end ;;
     _send_alert_email
       (mkText "Model Retraining Required: {}" [VStr model_name])
       (mkText "Issues detected: {}" [VStr (String.concat ", " found)]) ;;
     triggered_at <- get_now ;;
     let retraining_data :=
       VDict [ ("model_name", VStr model_name);
               ("issues", VList (map VStr found));
               ("metrics", metrics_val (default [] (metrics monitoring_result)));
               ("triggered_at", VStr triggered_at) ] in
     redis_lpush (py_str env retraining_data) ;;
     emit (EvMlflowParam (mkText "{}_retraining_triggered" [VStr model_name])
             (py_str env retraining_data)))
    (fun e =>
       log ERROR "Failed to trigger retraining for {}: {}"
         [VStr model_name; exc_val e]).

(** One pass through the body of the [for model_name in ...] loop. *)
Definition monitor_one (model_name : string)
    (monitoring_results : gmap string MonitoringResult)
    : M (gmap string MonitoringResult) :=
  try_except
    (result <- _monitor_single_model model_name ;;
     (if needs_retraining result then
        log WARNING "Model {} needs retraining: {}"
          [VStr model_name; VList (map VStr (default [] (issues result)))] ;;
        _trigger_retraining model_name result
      else ret tt) ;;
     ret (<[model_name := result]> monitoring_results))
    (fun e =>
       log ERROR "Failed to monitor {}: {}" [VStr model_name; exc_val e] ;;
       ret (<[model_name := error_result e]> monitoring_results)).

Fixpoint monitor_each (names : list string)
    (monitoring_results : gmap string MonitoringResult)
    : M (gmap string MonitoringResult) :=
  match names with
  | [] => ret monitoring_results
  | model_name :: rest =>
      monitoring_results' <- monitor_one model_name monitoring_results ;;
      monitor_each rest monitoring_results'
  end.

Definition monitor_models : M (gmap string MonitoringResult) :=
  log INFO "Starting model monitoring" [] ;;
  monitoring_results <- monitor_each monitored_models ∅ ;;
  _store_monitoring_results monitoring_results ;;
  log INFO "Model monitoring completed" [] ;;
  ret monitoring_results.

(** [await self.ml_pipeline.run_pipeline()]: the call takes no argument. *)
Definition call_run_pipeline : M (list (string * pyval)) :=
  fun w =>
    let w' := mkWorld (redis_kv w) (retraining_queue w) (EvRunPipeline :: trace w)
                (S (pipeline_runs w)) (now w) in
    match run_pipeline env (pipeline_runs w) with
    | PipelineReturns result => (inr result, w')
    | PipelineRaises e => (inl e, w')
    end.

Definition _run_retraining (model_name : pyval) : M bool :=
  try_except
    (log INFO "Starting retraining for {}" [model_name] ;;
     result <- call_run_pipeline ;;
     result_status <- getitem result "status" ;;
     if pyval_is_str result_status "success" then
       _send_alert_email
         (mkText "Model Retrained Successfully: {}" [model_name])
         (mkText "Retraining completed with metrics: {}"
            [default (VDict []) (assoc "evaluation_results" result)]) ;;
       ret true
     else
       _send_alert_email
         (mkText "Model Retraining Failed: {}" [model_name])
         (mkText "Error: {}"
            [default (VStr "Unknown error") (assoc "error" result)]) ;;
       ret false)
    (fun e =>
       log ERROR "Retraining failed for {}: {}" [model_name; exc_val e] ;;
       ret false).

(** One pass through the body of [while True]; [false] is [break]. *)
Definition process_next_job : M bool :=
  popped <- redis_rpop ;;
  match truthy popped with
  | None => ret false
  | Some job_data =>
      job <- py_eval env job_data ;;
      model_name <- py_getitem job "model_name" ;;
      log INFO "Processing retraining job for {}" [model_name] ;;
      success <- _run_retraining model_name ;;
      (if success then
         log INFO "Retraining completed for {}" [model_name]
       else
         log ERROR "Retraining failed for {}" [model_name] ;;
         redis_lpush job_data) ;;
      ret true
  end.

(** [while True: body], run for at most [fuel] passes; [None] when the
    loop is still running after them. *)
Fixpoint while_true (fuel : nat) (body : M bool) (w : World)
    : option ((PyExc + unit) * World) :=
  match fuel with
  | O => None
  | S fuel' =>
      match body w with
      | (inl e, w') => Some (inl e, w')
      | (inr false, w') => Some (inr tt, w')
      | (inr true, w') => while_true fuel' body w'
      end
  end.

Definition _process_retraining_queue (fuel : nat) (w : World) : option World :=
  match while_true fuel process_next_job w with
  | None => None
  | Some (inr tt, w') => Some w'
  | Some (inl e, w') =>
      Some (snd (log ERROR "Error processing retraining queue: {}" [exc_val e] w'))
  end.

(** One pass of [run_monitoring_cycle] up to the sleep. *)
Definition monitoring_cycle (fuel : nat) (w : World) : option World :=
  _process_retraining_queue fuel (snd (monitor_models w)).

End ModelMonitor.

(** ** Observations on a run *)

(** The outcome of a training run as [_run_retraining] reads it: the
    pipeline returned a dictionary whose ['status'] is ['success']. *)
Definition run_succeeds (o : PipelineOutcome) : bool :=
  match o with
  | PipelineReturns result =>
      match assoc "status" result with
      | Some v => pyval_is_str v "success"
      | None => false
      end
  | PipelineRaises _ => false
  end.

(** The Redis SET commands of a trace, most recent first. *)
Fixpoint baseline_writes (t : list Event) : list (string * string) :=
  match t with
  | [] => []
  | EvRedisSet k v :: t' => (k, v) :: baseline_writes t'
  | _ :: t' => baseline_writes t'
  end.

(** The calls of the training pipeline in a trace. *)
Fixpoint pipeline_calls (t : list Event) : list Event :=
  match t with
  | [] => []
  | EvRunPipeline :: t' => EvRunPipeline :: pipeline_calls t'
  | _ :: t' => pipeline_calls t'
  end.

(** Log records and notifications: the events that carry text. *)
Definition is_text (ev : Event) : bool :=
  match ev with
  | EvLog _ _ | EvEmail _ _ => true
  | _ => false
  end.

(** A payload that [eval] turns, without any effect, into a dictionary
    whose ['model_name'] is [model_name]. *)
Definition decodes (env : Env) (payload : string) (model_name : pyval) : Prop :=
  payload <> "" /\
  forall w, exists items,
    py_eval env payload w = (inr (VDict items), w) /\
    assoc "model_name" items = Some model_name.


(** The failed runs among the calls [from], ..., [from + count - 1] of the
    pipeline. *)
Definition failed_runs (env : Env) (from count : nat) : nat :=
  length (List.filter (fun i => negb (run_succeeds (run_pipeline env i)))
            (seq from count)).

(** A stored value that reads as true is still stored. *)
Definition baselines_kept (kv kv' : gmap string string) : Prop :=
  forall k v, truthy (kv !! k) = Some v -> kv' !! k = Some v.

(** Equality of floats up to the representation of the rational. *)
Definition npfloat_eq : Np.npfloat -> Np.npfloat -> Prop := option_Forall2 Qeq.

(** ** A laboratory environment

    Collaborators simple enough to run: [str] prints literals the way
    Python does (for strings without quotes), the interpreter knows the
    source texts of a table, the pipeline and the stores answer from
    given functions. *)

Fixpoint py_repr (v : pyval) : string :=
  match v with
  | VNone => "None"
  | VBool true => "True"
  | VBool false => "False"
  | VStr s => "'" ++ s ++ "'"
  | VNum None => "nan"
  | VNum (Some _) => "0.0"
  | VList l => "[" ++ String.concat ", " (map py_repr l) ++ "]"
  | VDict items =>
      "{" ++ String.concat ", "
               (map (fun kv => match kv with
                               | (k, x) => "'" ++ k ++ "': " ++ py_repr x
                               end) items) ++ "}"
  end.

Definition eval_table (table : list (string * M pyval)) (source : string) : M pyval :=
  match assoc source table with
  | Some run => run
  | None => raise (mkExc "SyntaxError" "invalid syntax")
  end.

Definition lab (table : list (string * M pyval))
    (outcomes : nat -> PipelineOutcome)
    (predictions : string -> PyExc + DataFrame)
    (features : string -> nat -> PyExc + DataFrame) : Env :=
  {| np_sqrt := fun q => q;
     np_log := fun q => (q - 1)%Q;
     format_float := fun _ _ => "0.000";
     py_str := py_repr;
     py_eval := eval_table table;
     fetch_predictions := predictions;
     fetch_features := features;
     describe := fun df => df;
     to_json := fun df => py_repr (VList (map (fun c => VStr (fst c)) (df_columns df)));
     read_json := fun _ => inl (mkExc "ValueError" "Expected object or value");
     _calculate_disease_metrics := fun _ => inr [];
     _calculate_recommendation_metrics := fun _ => inr [];
     _check_price_thresholds := fun _ => inr [];
     _check_disease_thresholds := fun _ => inr [];
     _check_recommendation_thresholds := fun _ => inr [];
     run_pipeline := outcomes;
     sender_email := Some "ml@mkulimalink.example";
     smtp_error := None;
     db_insert_error := None |}.

Definition world0 : World :=
  {| redis_kv := ∅; retraining_queue := []; trace := []; pipeline_runs := 0;
     now := "2024-01-01T00:00:00" |}.

Definition with_queue (q : list string) (w : World) : World :=
  mkWorld (redis_kv w) q (trace w) (pipeline_runs w) (now w).

Definition pipeline_error : PipelineOutcome :=
  PipelineReturns [("status", VStr "error"); ("error", VStr "training diverged")].

Definition pipeline_success : PipelineOutcome :=
  PipelineReturns [("status", VStr "success"); ("evaluation_results", VDict [])].

Definition db_down {A} : PyExc + A := inl (mkExc "OperationalError" "connection refused").

(** The job [_trigger_retraining] queues for one MAPE issue. *)
Definition price_job : pyval :=
  VDict [ ("model_name", VStr "price_prediction");
          ("issues", VList [VStr "MAPE too high: 20.00%"]);
          ("metrics", VDict []);
          ("triggered_at", VStr "2024-01-01T00:00:00") ].

Definition price_result : MonitoringResult :=
  {| status := "completed"; sample_count := Some 1200; metrics := Some [];
     issues := Some ["MAPE too high: 20.00%"]; error := None;
     needs_retraining := true |}.

(** A payload that is not the rendering of a job: a tuple whose first
    component runs a shell command, indexed to yield a dictionary. *)
Definition hostile_payload : string :=
  "(__import__('os').system('id'), {'model_name': 'price_prediction'})[1]".


(** Every payload of a queue decodes. *)
Definition all_decode (env : Env) (q : list string) : Prop :=
  Forall (fun p => exists m, decodes env p m) q.

(** The replies of [n] successive RPOPs, until the queue is empty. *)
Fixpoint rpop_all (n : nat) (w : World) : list string :=
  match n with
  | O => []
  | S n' =>
      match redis_rpop w with
      | (inr (Some x), w') => x :: rpop_all n' w'
      | _ => []
      end
  end.

(** An event without the values interpolated into its text. *)
Definition redact (ev : Event) : Event :=
  match ev with
  | EvLog lvl msg => EvLog lvl (mkText (template msg) [])
  | EvEmail subject message =>
      EvEmail (mkText (template subject) []) (mkText (template message) [])
  | _ => ev
  end.

(** A batch of 1000 observations with actual price -1 and predicted
    price 0. *)
Definition negative_actual : list Q := replicate 1000 (-1)%Q.
Definition negative_predicted : list Q := replicate 1000 0%Q.
Definition negative_batch : DataFrame :=
  mkDF 1000 [("actual_price", negative_actual);
             ("predicted_price", negative_predicted)].

(** The three observations of the specification's first scenario. *)
Definition small_actual : list Q := [100; 102; 104]%Q.
Definition small_predicted : list Q := [100; 101; 108]%Q.
Definition small_batch : DataFrame :=
  mkDF 3 [("actual_price", small_actual); ("predicted_price", small_predicted)].

(** The interpreter knows the rendering of [price_job]; every run of the
    pipeline reports an error. *)
Definition failing_lab : Env :=
  lab [(py_repr price_job, ret price_job)] (fun _ => pipeline_error)
    (fun _ => db_down) (fun _ _ => db_down).


(** The world after monitoring has queued a retraining job for the price
    model. *)
Definition queued_world : World :=
  snd (_trigger_retraining failing_lab "price_prediction" price_result world0).




(** The dictionary [_trigger_retraining] builds. *)
Definition retraining_data (model_name : string) (found : list string)
    (m : option Metrics) (triggered_at : string) : pyval :=
  VDict [ ("model_name", VStr model_name);
          ("issues", VList (map VStr found));
          ("metrics", metrics_val (default [] m));
          ("triggered_at", VStr triggered_at) ].

(** The job for the disease model that differs from [price_job] in the
    model name only, and an interpreter that knows both renderings. *)
Definition disease_job : pyval :=
  VDict [ ("model_name", VStr "disease_detection");
          ("issues", VList [VStr "MAPE too high: 20.00%"]);
          ("metrics", VDict []);
          ("triggered_at", VStr "2024-01-01T00:00:00") ].

Definition two_jobs_lab : Env :=
  lab [(py_repr price_job, ret price_job); (py_repr disease_job, ret disease_job)]
    (fun _ => pipeline_error) (fun _ => db_down) (fun _ _ => db_down).

(** Fifty predictions for every model (the specification's third
    scenario has 50 samples against a minimum of 500). *)
Definition sparse_lab : Env :=
  lab [] (fun _ => pipeline_success) (fun _ => inr (mkDF 50 []))
    (fun _ _ => db_down).

(** The query for the price model's predictions fails; the other models
    have fifty predictions each. *)
Definition partial_lab : Env :=
  lab [] (fun _ => pipeline_success)
    (fun m => if String.eqb m "price_prediction" then db_down
              else inr (mkDF 50 []))
    (fun _ _ => db_down).

(** The feature table is reachable and holds no row for any model. *)
Definition no_features_lab : Env :=
  lab [] (fun _ => pipeline_success) (fun _ => inr (mkDF 50 []))
    (fun _ _ => inr (mkDF 0 [])).

(** The feature table holds two rows of one feature for every model. *)
Definition features_lab : Env :=
  lab [] (fun _ => pipeline_success) (fun _ => inr (mkDF 50 []))
    (fun _ _ => inr (mkDF 2 [("rainfall", [10; 12]%Q)])).

(** The feature query matches no row: the frame it returns names its
    column and has no row, as [pd.read_sql_query] does for an empty result
    set. *)
Definition empty_result_lab : Env :=
  lab [] (fun _ => pipeline_success) (fun _ => inr (mkDF 50 []))
    (fun _ _ => inr (mkDF 0 [("rainfall", [])])).

(** The events [_send_alert_email] adds to the trace, most recent first. *)
Definition email_events (env : Env) (subject message : Text) : list Event :=
  match truthy (sender_email env) with
  | None =>
      [EvLog WARNING (mkText "Email configuration not set, skipping alert" [])]
  | Some _ =>
      match smtp_error env with
      | Some e => [EvLog ERROR (mkText "Failed to send alert email: {}" [exc_val e])]
      | None =>
          [EvLog INFO (mkText ("Alert email sent: " ++ template subject) (args subject));
           EvEmail subject message]
      end
  end.

(** The events [_run_retraining] adds after the call of the pipeline, by
    the outcome of that call. *)
Definition run_events (env : Env) (model_name : pyval) (o : PipelineOutcome)
    : list Event :=
  match o with
  | PipelineRaises e =>
      [EvLog ERROR (mkText "Retraining failed for {}: {}" [model_name; exc_val e])]
  | PipelineReturns result =>
      match assoc "status" result with
      | None =>
          [EvLog ERROR (mkText "Retraining failed for {}: {}"
                          [model_name; exc_val (key_error "status")])]
      | Some v =>
          if pyval_is_str v "success" then
            email_events env
              (mkText "Model Retrained Successfully: {}" [model_name])
              (mkText "Retraining completed with metrics: {}"
                 [default (VDict []) (assoc "evaluation_results" result)])
          else
            email_events env
              (mkText "Model Retraining Failed: {}" [model_name])
              (mkText "Error: {}"
                 [default (VStr "Unknown error") (assoc "error" result)])
      end
  end.

(** ** The per-family metric and threshold code

    The remaining methods of the MetricEvaluator and the ThresholdPolicy,
    on their own.  A threshold check compares floats, so it is given a
    metrics dictionary whose values are all finite. *)

Module Policy.

Definition FiniteMetrics := list (string * Q).

(** The finite dictionary behind a metrics dictionary, if all its values
    are finite. *)
Definition finite_metrics (m : Metrics) : option FiniteMetrics :=
  mapM (fun kv => match snd kv with
                  | Some q => Some (fst kv, q)
                  | None => None
                  end) m.

(** [metrics.get(key, default)] *)
Definition get (m : FiniteMetrics) (key : string) (dflt : Q) : Q :=
  default dflt (assoc key m).

Definition gt (x y : Q) : bool := if Qlt_le_dec y x then true else false.
Definition lt (x y : Q) : bool := if Qlt_le_dec x y then true else false.

(** [metrics[key]] inside an f-string with format [:.2f]. *)
Definition shown (format_float : nat -> Q -> string) (m : FiniteMetrics)
    (key : string) : PyExc + string :=
  match assoc key m with
  | Some q => inr (format_float 2 q)
  | None => inl (key_error key)
  end.

(** One [if condition: issues.append(text)] of a threshold check, after
    the issues found so far. *)
Definition check (so_far : PyExc + list string) (condition : PyExc + bool)
    (text : PyExc + string) : PyExc + list string :=
  match so_far with
  | inl e => inl e
  | inr found =>
      match condition with
      | inl e => inl e
      | inr false => inr found
      | inr true =>
          match text with
          | inl e => inl e
          | inr s => inr (found ++ [s])%list
          end
      end
  end.

Section Thresholds.

Variable format_float : nat -> Q -> string.

Definition _check_price_thresholds (m : FiniteMetrics) : PyExc + list string :=
  let mape_issue :=
    check (inr [])
      (match lookup_threshold "price_prediction" "mape_threshold" with
       | inl e => inl e
       | inr t => inr (gt (get m "mape" 0) (t * 100))
       end)
      (match shown format_float m "mape" with
       | inl e => inl e
       | inr s => inr ("MAPE too high: " ++ s ++ "%")
       end) in
  check mape_issue
    (inr (lt (get m "directional_accuracy" 100) 60))
    (match shown format_float m "directional_accuracy" with
     | inl e => inl e
     | inr s => inr ("Directional accuracy too low: " ++ s ++ "%")
     end).

Definition _check_disease_thresholds (m : FiniteMetrics) : PyExc + list string :=
  let accuracy_issue :=
    check (inr [])
      (match lookup_threshold "disease_detection" "accuracy_threshold" with
       | inl e => inl e
       | inr t => inr (lt (get m "accuracy" 1) t)
       end)
      (match shown format_float m "accuracy" with
       | inl e => inl e
       | inr s => inr ("Accuracy too low: " ++ s)
       end) in
  check accuracy_issue
    (inr (lt (get m "f1_score" 1) (7 # 10)))
    (match shown format_float m "f1_score" with
     | inl e => inl e
     | inr s => inr ("F1 score too low: " ++ s)
     end).

Definition _check_recommendation_thresholds (m : FiniteMetrics)
    : PyExc + list string :=
  let precision_issue :=
    check (inr [])
      (match lookup_threshold "recommendations" "precision_threshold" with
       | inl e => inl e
       | inr t => inr (lt (get m "precision_at_5" 1) t)
       end)
      (match shown format_float m "precision_at_5" with
       | inl e => inl e
       | inr s => inr ("Precision@5 too low: " ++ s)
       end) in
  check precision_issue
    (inr (lt (get m "ctr" 1) (5 # 100)))
    (match shown format_float m "ctr" with
     | inl e => inl e
     | inr s => inr ("CTR too low: " ++ s)
     end).

End Thresholds.

(** [np.sum(mask)]: the number of rows where the mask holds. *)
Definition count_where (mask : list bool) : Q :=
  Np.of_nat (length (List.filter (fun b => b) mask)).

Definition is_label (l : Q) (x : Q) : bool := Qeq_bool x l.

Definition eps_guard : Q := 1 # 10000000.

Definition true_positives (actual predicted : list Q) : Q :=
  count_where (zip_with (fun a p => is_label 1 a && is_label 1 p) actual predicted).

Definition false_positives (actual predicted : list Q) : Q :=
  count_where (zip_with (fun a p => is_label 0 a && is_label 1 p) actual predicted).

Definition false_negatives (actual predicted : list Q) : Q :=
  count_where (zip_with (fun a p => is_label 1 a && is_label 0 p) actual predicted).

Definition precision (actual predicted : list Q) : Np.npfloat :=
  Np.div (true_positives actual predicted)
    (true_positives actual predicted + false_positives actual predicted + eps_guard).

Definition recall (actual predicted : list Q) : Np.npfloat :=
  Np.div (true_positives actual predicted)
    (true_positives actual predicted + false_negatives actual predicted + eps_guard).

Definition f1_score (actual predicted : list Q) : Np.npfloat :=
  match precision actual predicted, recall actual predicted with
  | Some p, Some r => Np.div (2 * p * r) (p + r + eps_guard)
  | _, _ => None
  end.

(** [np.mean(actual == predicted)] *)
Definition accuracy (actual predicted : list Q) : Np.npfloat :=
  Np.mean (zip_with (fun a p => Some (Np.of_bool (Qeq_bool a p))) actual predicted).

Definition _calculate_disease_metrics (data : DataFrame) : Metrics :=
  match df_col "actual_disease" data, df_col "predicted_disease" data with
  | Some actual, Some predicted =>
      [ ("accuracy", accuracy actual predicted);
        ("precision", precision actual predicted);
        ("recall", recall actual predicted);
        ("f1_score", f1_score actual predicted);
        ("sample_count", Some (Np.of_nat (df_len data))) ]
  | _, _ => []
  end.

(** How many of the rows seen so far belong to [user]. *)
Definition seen (user : Q) (earlier : list Q) : nat :=
  length (List.filter (fun u => Qeq_bool u user) earlier).

(** [data.groupby('user_id')[column].head(n)]: the rows that are among the
    first [n] of their user, in the order of the frame.  [earlier] holds
    the users of the rows already passed. *)
Fixpoint head_per_user (n : nat) (earlier : list Q) (users values : list Q)
    : list Q :=
  match users, values with
  | u :: users', v :: values' =>
      if Nat.ltb (seen u earlier) n
      then v :: head_per_user n (u :: earlier) users' values'
      else head_per_user n (u :: earlier) users' values'
  | _, _ => []
  end.

Definition series_mean (values : list Q) : Np.npfloat :=
  Np.mean (map Some values).

Definition _calculate_recommendation_metrics (data : DataFrame)
    : PyExc + Metrics :=
  match df_col "clicked" data with
  | None => inr []
  | Some clicked =>
      match df_col "user_id" data with
      | None => inl (key_error "user_id")
      | Some users =>
          inr [ ("ctr", series_mean clicked);
                ("precision_at_5", series_mean (head_per_user 5 [] users clicked));
                ("precision_at_10", series_mean (head_per_user 10 [] users clicked));
                ("sample_count", Some (Np.of_nat (df_len data))) ]
      end
  end.

End Policy.



(** What the drift loop reports for the price model, as a filter over the
    baseline's columns: the features the current statistics also have
    whose index exceeds the drift threshold of 0.1. *)
Definition drifted_features (env : Env) (current_stats : DataFrame)
    (baseline_columns : list (string * list Q)) : list string :=
  omap (fun column =>
          match df_col (fst column) current_stats with
          | None => None
          | Some current_values =>
              let psi := _calculate_psi (np_log env) (snd column) current_values 10 in
              if Qlt_le_dec (1 # 10) psi
              then Some (drift_issue env (fst column) psi)
              else None
          end) baseline_columns.

(** Several payloads put on the queue one after the other, one LPUSH
    each. *)
Fixpoint push_all (payloads : list string) (w : World) : World :=
  match payloads with
  | [] => w
  | x :: rest => push_all rest (snd (redis_lpush x w))
  end.

(** A laboratory whose stored baseline parses: the baseline statistics of
    one feature, and current statistics that have moved away from them. *)
Definition baseline_frame : DataFrame :=
  mkDF 3 [("rainfall", [10; 11; 12]%Q); ("altitude", [5; 5; 6]%Q)].

Definition current_frame : DataFrame :=
  mkDF 3 [("rainfall", [10; 30; 50]%Q)].

Definition drift_lab : Env :=
  {| np_sqrt := fun q => q;
     np_log := fun q => (q - 1)%Q;
     format_float := fun _ _ => "0.000";
     py_str := py_repr;
     py_eval := eval_table [];
     fetch_predictions := fun _ => inr (mkDF 50 []);
     fetch_features := fun _ _ => inr current_frame;
     describe := fun df => df;
     to_json := fun _ => "{}";
     read_json := fun _ => inr baseline_frame;
     _calculate_disease_metrics := fun _ => inr [];
     _calculate_recommendation_metrics := fun _ => inr [];
     _check_price_thresholds := fun _ => inr [];
     _check_disease_thresholds := fun _ => inr [];
     _check_recommendation_thresholds := fun _ => inr [];
     run_pipeline := fun _ => pipeline_success;
     sender_email := Some "ml@mkulimalink.example";
     smtp_error := None;
     db_insert_error := None |}.

Definition baselined_world : World :=
  {| redis_kv := {[ "baseline_features:price_prediction" := "{}" ]};
     retraining_queue := []; trace := []; pipeline_runs := 0;
     now := "2024-01-01T00:00:00" |}.

(** Whether the entry of a model in [monitoring_results] asks for
    retraining. *)
Definition asks_retraining (results : gmap string MonitoringResult)
    (model_name : string) : bool :=
  match results !! model_name with
  | Some r => needs_retraining r
  | None => false
  end.

(** The model names of the 'Processing retraining job' log records of a
    trace, oldest first. *)
Fixpoint processing_log (t : list Event) : list pyval :=
  match t with
  | [] => []
  | EvLog INFO (mkText tpl [m]) :: t' =>
      if String.eqb tpl "Processing retraining job for {}"
      then (processing_log t' ++ [m])%list
      else processing_log t'
  | _ :: t' => processing_log t'
  end.

(** Both jobs are known to the interpreter and every run succeeds. *)
Definition two_jobs_ok_lab : Env :=
  lab [(py_repr price_job, ret price_job); (py_repr disease_job, ret disease_job)]
    (fun _ => pipeline_success) (fun _ => db_down) (fun _ _ => db_down).

(** The price job was queued first, the disease job after it. *)
Definition two_jobs_world : World :=
  push_all [py_repr price_job; py_repr disease_job] world0.

(** ** The dashboard *)

Record Dashboard := mkDashboard {
  recent_monitoring : list string;            (* the rows of the query *)
  model_statuses : list (string * string);    (* model name to status *)
  alerts : list pyval
}.

(** [try: return [] except Exception: return []] *)
Definition _get_recent_alerts : M (list pyval) := ret [].

Definition status_key (model_name : string) : string :=
  "model_status:" ++ model_name.

(** The [for model_name in ...] loop of the dashboard:
    [model_statuses[model_name] = status or 'unknown']. *)
Fixpoint dashboard_statuses (names : list string) : M (list (string * string)) :=
  match names with
  | [] => ret []
  | model_name :: rest =>
      reply <- redis_get (status_key model_name) ;;
      later <- dashboard_statuses rest ;;
      ret ((model_name, default "unknown" (truthy reply)) :: later)
  end.

(** [recent] is what the query on [model_monitoring] gives: its rows, or
    the exception it raises.  [None] is the empty dictionary returned after
    an exception. *)
Definition get_monitoring_dashboard (recent : PyExc + list string)
    : M (option Dashboard) :=
  try_except
    (rows <- lift recent ;;
     statuses <- dashboard_statuses monitored_models ;;
     recent_alerts <- _get_recent_alerts ;;
     ret (Some (mkDashboard rows statuses recent_alerts)))
    (fun e =>
       log ERROR "Failed to get monitoring dashboard: {}" [exc_val e] ;;
       ret None).

(** ** MLPipeline.run_pipeline

    The five stages are the methods [collect_data], [preprocess_data],
    [train_models], [evaluate_models] and [save_models]; each works on the
    state of the pipeline's collaborators (data stores, models in memory
    and on disk) and returns or raises. *)

Module MLPipeline.

Section Pipeline.

Variable State : Type.

Definition Stage (A : Type) : Type := State -> (PyExc + A) * State.

Variable collect_data : Stage (list (string * DataFrame)).
Variable preprocess_data : list (string * DataFrame) -> Stage (list (string * DataFrame)).
Variable train_models : list (string * DataFrame) -> Stage pyval.
Variable evaluate_models : list (string * DataFrame) -> Stage pyval.
Variable save_models : Stage unit.
Variable timestamp : string.

Definition error_result (e : PyExc) : list (string * pyval) :=
  [ ("status", VStr "error"); ("error", VStr (exc_msg e));
    ("timestamp", VStr timestamp) ].

Definition data_stats (processed_data : list (string * DataFrame)) : pyval :=
  VDict (map (fun item => (fst item, VNum (Some (Np.of_nat (df_len (snd item))))))
           processed_data).

Definition run_pipeline (s : State) : list (string * pyval) * State :=
  match collect_data s with
  | (inl e, s1) => (error_result e, s1)
  | (inr raw_data, s1) =>
      match preprocess_data raw_data s1 with
      | (inl e, s2) => (error_result e, s2)
      | (inr processed_data, s2) =>
          match train_models processed_data s2 with
          | (inl e, s3) => (error_result e, s3)
          | (inr training_results, s3) =>
              match evaluate_models processed_data s3 with
              | (inl e, s4) => (error_result e, s4)
              | (inr evaluation_results, s4) =>
                  match save_models s4 with
                  | (inl e, s5) => (error_result e, s5)
                  | (inr _, s5) =>
                      ([ ("status", VStr "success");
                         ("timestamp", VStr timestamp);
                         ("data_stats", data_stats processed_data);
                         ("training_results", training_results);
                         ("evaluation_results", evaluation_results) ],
                       s5)
                  end
              end
          end
      end
  end.

End Pipeline.

End MLPipeline.

(** A laboratory in which monitoring flags the price model: 1200
    predictions and a threshold check that reports a MAPE issue; the
    interpreter knows the job that results, and every run succeeds. *)
Definition flagging_lab : Env :=
  {| np_sqrt := fun q => q;
     np_log := fun q => (q - 1)%Q;
     format_float := fun _ _ => "0.000";
     py_str := py_repr;
     py_eval := eval_table [(py_repr price_job, ret price_job)];
     fetch_predictions :=
       fun m => if String.eqb m "price_prediction" then inr (mkDF 1200 [])
                else inr (mkDF 50 []);
     fetch_features := fun _ _ => db_down;
     describe := fun df => df;
     to_json := fun _ => "{}";
     read_json := fun _ => inl (mkExc "ValueError" "Expected object or value");
     _calculate_disease_metrics := fun _ => inr [];
     _calculate_recommendation_metrics := fun _ => inr [];
     _check_price_thresholds := fun _ => inr ["MAPE too high: 20.00%"];
     _check_disease_thresholds := fun _ => inr [];
     _check_recommendation_thresholds := fun _ => inr [];
     run_pipeline := fun _ => pipeline_success;
     sender_email := Some "ml@mkulimalink.example";
     smtp_error := None;
     db_insert_error := None |}.

(** A stored baseline that parses, and a feature table that cannot be
    reached. *)
Definition stale_lab : Env :=
  {| np_sqrt := fun q => q;
     np_log := fun q => (q - 1)%Q;
     format_float := fun _ _ => "0.000";
     py_str := py_repr;
     py_eval := eval_table [];
     fetch_predictions := fun _ => inr (mkDF 50 []);
     fetch_features := fun _ _ => db_down;
     describe := fun df => df;
     to_json := fun _ => "{}";
     read_json := fun _ => inr baseline_frame;
     _calculate_disease_metrics := fun _ => inr [];
     _calculate_recommendation_metrics := fun _ => inr [];
     _check_price_thresholds := fun _ => inr [];
     _check_disease_thresholds := fun _ => inr [];
     _check_recommendation_thresholds := fun _ => inr [];
     run_pipeline := fun _ => pipeline_success;
     sender_email := Some "ml@mkulimalink.example";
     smtp_error := None;
     db_insert_error := None |}.

(** * Properties *)

Local Open Scope list_scope.

(** ** Helper facts about the numeric model *)

Lemma sum_Qeq (xs ys : list Q) :
  Forall2 Qeq xs ys -> (Np.sum xs == Np.sum ys)%Q.
Proof.
  induction 1 as [|x y xs ys Hxy _ IH]; simpl; [reflexivity|].
  now rewrite Hxy, IH.
Qed.

Lemma mapM_id_Forall2 (xs ys : list Np.npfloat) :
  Forall2 npfloat_eq xs ys ->
  option_Forall2 (Forall2 Qeq) (mapM id xs) (mapM id ys).
Proof.
  induction 1 as [|x y xs ys Hxy _ IH]; simpl.
  - constructor. constructor.
  - destruct Hxy as [a b Hab|]; simpl; [|constructor].
    destruct IH as [l k Hlk|]; simpl; constructor.
    now constructor.
Qed.

Lemma mean_Qeq (xs ys : list Np.npfloat) :
  Forall2 npfloat_eq xs ys -> npfloat_eq (Np.mean xs) (Np.mean ys).
Proof.
  intros H. unfold Np.mean.
  destruct (mapM_id_Forall2 _ _ H) as [l k Hlk|]; [|constructor].
  destruct Hlk as [|a b l k Hab Hlk]; constructor.
  assert (Hs : (Np.sum (a :: l) == Np.sum (b :: k))%Q)
    by (apply sum_Qeq; now constructor).
  rewrite Hs. simpl length. now rewrite (Forall2_length _ _ _ Hlk).
Qed.

Lemma scale_Qeq (c : Q) (x y : Np.npfloat) :
  npfloat_eq x y ->
  npfloat_eq ((fun m => (m * c)%Q) <$> x) ((fun m => (m * c)%Q) <$> y).
Proof. intros [a b Hab|]; simpl; constructor. now rewrite Hab. Qed.

Lemma Forall2_zip_with_same {A B C : Type} (R : C -> C -> Prop)
    (f g : A -> B -> C) (xs : list A) (ys : list B) :
  (forall a b, a ∈ xs -> R (f a b) (g a b)) ->
  Forall2 R (zip_with f xs ys) (zip_with g xs ys).
Proof.
  revert ys. induction xs as [|a xs IH]; intros [|b ys] H; simpl;
    try constructor.
  - apply H. left.
  - apply IH. intros a' b' Hin. apply H. now right.
Qed.

Lemma abs_of_quotient (x y : Q) :
  npfloat_eq (Qabs <$> Np.div x y) (Np.div (Qabs x) (Qabs y)).
Proof.
  unfold Np.div.
  destruct (Qeq_bool y 0) eqn:Hy.
  - apply Qeq_bool_iff in Hy.
    assert (Hz : Qeq_bool (Qabs y) 0 = true).
    { apply Qeq_bool_iff. rewrite Hy. reflexivity. }
    rewrite Hz. constructor.
  - assert (Hz : Qeq_bool (Qabs y) 0 = false).
    { destruct (Qeq_bool (Qabs y) 0) eqn:E; [|reflexivity].
      apply Qeq_bool_iff in E.
      assert (Hy0 : (y == 0)%Q).
      { revert E. apply Qabs_case; intros _ H0; [exact H0|].
        rewrite <- (Qopp_involutive y), H0. reflexivity. }
      apply Qeq_bool_iff in Hy0. congruence. }
    rewrite Hz.
    change (npfloat_eq (Some (Qabs (x / y))) (Some (Qabs x / Qabs y)%Q)).
    constructor. unfold Qdiv. rewrite Qabs_Qmult, Qabs_Qinv. reflexivity.
Qed.

Lemma div_Qeq (x x' y y' : Q) :
  (x == x')%Q -> (y == y')%Q -> npfloat_eq (Np.div x y) (Np.div x' y').
Proof.
  intros Hx Hy. unfold Np.div.
  assert (E : Qeq_bool y 0 = Qeq_bool y' 0).
  { destruct (Qeq_bool y 0) eqn:E1, (Qeq_bool y' 0) eqn:E2; try reflexivity.
    - apply Qeq_bool_iff in E1. rewrite Hy in E1.
      apply Qeq_bool_iff in E1. congruence.
    - apply Qeq_bool_iff in E2. rewrite <- Hy in E2.
      apply Qeq_bool_iff in E2. congruence. }
  rewrite E. destruct (Qeq_bool y' 0); constructor.
  now rewrite Hx, Hy.
Qed.

Lemma npfloat_eq_trans (x y z : Np.npfloat) :
  npfloat_eq x y -> npfloat_eq y z -> npfloat_eq x z.
Proof.
  intros [a b Hab|] Hyz; inversion Hyz; subst; constructor.
  etransitivity; eassumption.
Qed.

Lemma mape_is_abs_denominator (actual predicted : list Q) :
  npfloat_eq (mape actual predicted) (mape_abs_denominator actual predicted).
Proof.
  unfold mape, mape_abs_denominator.
  apply scale_Qeq, mean_Qeq, Forall2_zip_with_same.
  intros a p _. apply abs_of_quotient.
Qed.

Lemma abs_denominator_nonneg (actual predicted : list Q) :
  Forall (fun a => (0 <= a)%Q) actual ->
  npfloat_eq (mape_abs_denominator actual predicted) (mape_spec actual predicted).
Proof.
  intros Hpos. unfold mape_abs_denominator, mape_spec.
  apply scale_Qeq, mean_Qeq, Forall2_zip_with_same.
  intros a p Hin. apply div_Qeq; [reflexivity|].
  rewrite Forall_forall in Hpos. specialize (Hpos a Hin).
  rewrite (Qabs_pos a Hpos). apply Qabs_pos.
  apply Qle_trans with (y := a); [exact Hpos|].
  rewrite <- (Qplus_0_r a) at 1. apply Qplus_le_r. discriminate.
Qed.

Lemma sum_replicate (n : nat) (x : Q) :
  (Np.sum (replicate n x) == Np.of_nat n * x)%Q.
Proof.
  induction n as [|n IH].
  - simpl. unfold Np.of_nat. simpl. ring.
  - change (Np.sum (replicate (S n) x)) with (x + Np.sum (replicate n x))%Q.
    rewrite IH. unfold Np.of_nat. rewrite Nat2Z.inj_succ.
    unfold Z.succ. rewrite inject_Z_plus. ring.
Qed.

Lemma mapM_id_replicate (n : nat) (x : Q) :
  mapM id (replicate n (Some x)) = Some (replicate n x).
Proof. induction n as [|n IH]; simpl; [reflexivity|]. now rewrite IH. Qed.

(** The mean of a constant array is the constant. *)
Lemma mean_replicate (n : nat) (x : Np.npfloat) :
  npfloat_eq (Np.mean (replicate (S n) x)) x.
Proof.
  destruct x as [x|]; [|constructor].
  unfold Np.mean. rewrite mapM_id_replicate.
  change (replicate (S n) x) with (x :: replicate n x).
  constructor.
  change (x :: replicate n x) with (replicate (S n) x).
  rewrite sum_replicate, length_replicate.
  field. unfold Np.of_nat. intros H.
  apply (f_equal Qnum) in H || idtac.
  revert H. unfold Qeq. simpl. lia.
Qed.

(** ** C7: the MAPE formula *)

(** C7, as the specification words it, fails: for a batch of 1000
    observations with actual price -1 and predicted price 0 the method
    divides by (actual + 1e-7) = -0.9999999 and takes the magnitude of the
    quotient, so MAPE is 100 / 0.9999999, while the specification's
    denominator |actual| + 1e-7 gives 100 / 1.0000001. *)
Lemma C7_mape_counterexample :
  exists m s : Q,
    assoc "mape" (_calculate_price_metrics (fun q => q) negative_batch)
      = Some (Some m) /\
    mape_spec negative_actual negative_predicted = Some s /\
    (m == 1000000000 # 9999999)%Q /\
    (s == 1000000000 # 10000001)%Q /\
    ~ (m == s)%Q.
Proof.
  set (actual := negative_actual). set (predicted := negative_predicted).
  set (data := negative_batch).
  assert (Hm : npfloat_eq (mape actual predicted) (Some (1000000000 # 9999999))).
  { unfold mape, actual, predicted, negative_actual, negative_predicted.
    rewrite zip_with_replicate.
    change (Some (1000000000 # 9999999))
      with ((fun m => (m * 100)%Q) <$> Some (10000000 # 9999999)).
    apply scale_Qeq.
    eapply npfloat_eq_trans; [apply (mean_replicate 999)|].
    vm_compute. constructor. reflexivity. }
  assert (Hs : npfloat_eq (mape_spec actual predicted) (Some (1000000000 # 10000001))).
  { unfold mape_spec, actual, predicted, negative_actual, negative_predicted.
    rewrite zip_with_replicate.
    change (Some (1000000000 # 10000001))
      with ((fun m => (m * 100)%Q) <$> Some (10000000 # 10000001)).
    apply scale_Qeq.
    eapply npfloat_eq_trans; [apply (mean_replicate 999)|].
    vm_compute. constructor. reflexivity. }
  change (assoc "mape" (_calculate_price_metrics (fun q => q) data))
    with (Some (mape actual predicted)).
  destruct (mape actual predicted) as [m|]; [|inversion Hm].
  destruct (mape_spec actual predicted) as [s|]; [|inversion Hs].
  assert (Hm' : (m == 1000000000 # 9999999)%Q) by (inversion Hm; assumption).
  assert (Hs' : (s == 1000000000 # 10000001)%Q) by (inversion Hs; assumption).
  exists m, s. repeat (split; [done|]).
  rewrite Hm', Hs'. discriminate.
Qed.

(** C7, amended.  On every batch that has both price columns the computed
    MAPE is mean(|actual - predicted| / |actual + eps|) * 100 with
    eps = 1e-7: the denominator is the magnitude of (actual + eps).  It
    equals the formula of the specification, with denominator
    |actual| + eps, on every batch whose actual prices are all
    non-negative. *)
Theorem C7_mape_formula (np_sqrt : Q -> Q) (data : DataFrame)
    (actual predicted : list Q) :
  df_col "actual_price" data = Some actual ->
  df_col "predicted_price" data = Some predicted ->
  exists m : Np.npfloat,
    assoc "mape" (_calculate_price_metrics np_sqrt data) = Some m /\
    npfloat_eq m (mape_abs_denominator actual predicted) /\
    (Forall (fun a => (0 <= a)%Q) actual ->
     npfloat_eq m (mape_spec actual predicted)).
Proof.
  intros Ha Hp. exists (mape actual predicted).
  split.
  { unfold _calculate_price_metrics. rewrite Ha, Hp. reflexivity. }
  split; [apply mape_is_abs_denominator|].
  intros Hpos. eapply npfloat_eq_trans; [apply mape_is_abs_denominator|].
  now apply abs_denominator_nonneg.
Qed.

Lemma C7_mape_formula_witness :
  exists m : Np.npfloat,
    assoc "mape" (_calculate_price_metrics (fun q => q) small_batch) = Some m /\
    npfloat_eq m (mape_abs_denominator small_actual small_predicted) /\
    npfloat_eq m (mape_spec small_actual small_predicted).
Proof.
  destruct (C7_mape_formula (fun q => q) small_batch
              small_actual small_predicted eq_refl eq_refl)
    as (m & Hm & Habs & Hspec).
  exists m. split; [exact Hm|]. split; [exact Habs|].
  apply Hspec. repeat constructor; discriminate.
Defined.

(** ** C9: PSI of a distribution against itself *)








(** The index does measure a shift: two different samples give a PSI that
    is not 0. *)
Example psi_of_shifted_sample :
  ~ (_calculate_psi (fun x => x - 1)%Q [1; 2; 3; 4]%Q [1; 2; 3; 9]%Q 10 == 0)%Q.
Proof. vm_compute. discriminate. Qed.

(** ** Helper facts about the monitor's methods *)

Lemma pipeline_calls_text (new t : list Event) :
  forallb is_text new = true -> pipeline_calls (new ++ t) = pipeline_calls t.
Proof.
  induction new as [|ev new IH]; simpl; [reflexivity|].
  destruct ev; simpl; try discriminate; exact IH.
Qed.

Lemma baseline_writes_text (new t : list Event) :
  forallb is_text new = true -> baseline_writes (new ++ t) = baseline_writes t.
Proof.
  induction new as [|ev new IH]; simpl; [reflexivity|].
  destruct ev; simpl; try discriminate; exact IH.
Qed.

Lemma truthy_nonempty (s : string) : s <> "" -> truthy (Some s) = Some s.
Proof.
  intros Hs. unfold truthy. destruct (String.eqb_spec s ""); congruence.
Qed.

Lemma truthy_Some (reply : option string) (s : string) :
  truthy reply = Some s -> reply = Some s /\ s <> "".
Proof.
  destruct reply as [s'|]; simpl; [|discriminate].
  destruct (String.eqb_spec s' ""); [discriminate|].
  intros [= <-]. split; [reflexivity | assumption].
Qed.

(** Sending a notification never raises and only adds log records and
    notifications to the trace. *)
Lemma send_alert_email_spec (env : Env) (subject message : Text) (w : World) :
  exists new,
    _send_alert_email env subject message w =
      (inr tt, mkWorld (redis_kv w) (retraining_queue w) (new ++ trace w)
                 (pipeline_runs w) (now w)) /\
    forallb is_text new = true.
Proof.
  unfold _send_alert_email, try_except, bind, log, emit, raise.
  destruct (truthy (sender_email env)).
  - destruct (smtp_error env); simpl.
    + now eexists [_].
    + now eexists [_; _].
  - now eexists [_].
Qed.

(** A training run: one call of the pipeline, whose outcome decides the
    result; the model name reaches only log records and notifications. *)
Lemma run_retraining_spec (env : Env) (model_name : pyval) (w : World) :
  exists new,
    _run_retraining env model_name w =
      (inr (run_succeeds (run_pipeline env (pipeline_runs w))),
       mkWorld (redis_kv w) (retraining_queue w)
         (new ++ EvRunPipeline ::
            EvLog INFO (mkText "Starting retraining for {}" [model_name]) ::
            trace w)
         (S (pipeline_runs w)) (now w)) /\
    forallb is_text new = true.
Proof.
  unfold _run_retraining, try_except, bind, call_run_pipeline, log, emit.
  simpl.
  destruct (run_pipeline env (pipeline_runs w)) as [result|e]; simpl.
  - unfold getitem. destruct (assoc "status" result) as [v|]; simpl.
    + destruct (pyval_is_str v "success");
        match goal with
        | |- context [_send_alert_email env ?s ?m ?w0] =>
            destruct (send_alert_email_spec env s m w0) as (new & -> & Hnew)
        end; simpl; now exists new.
    + now eexists [_].
  - now eexists [_].
Qed.

Lemma rpop_snoc (w : World) (q : list string) (p : string) :
  retraining_queue w = q ++ [p] ->
  redis_rpop w = (inr (Some p), with_queue q w).
Proof.
  intros Hq. unfold redis_rpop, with_queue.
  rewrite Hq, reverse_snoc, reverse_involutive. reflexivity.
Qed.

Lemma rpop_empty (w : World) :
  retraining_queue w = [] -> redis_rpop w = (inr None, w).
Proof. intros Hq. unfold redis_rpop. rewrite Hq. reflexivity. Qed.

(** RPOP returns the queued values from the right end to the left end. *)
Lemma rpop_all_order (q : list string) :
  forall w, retraining_queue w = q -> rpop_all (length q) w = reverse q.
Proof.
  induction q as [|p q IH] using rev_ind; intros w Hq; [reflexivity|].
  rewrite length_app, Nat.add_comm. simpl.
  rewrite (rpop_snoc w q p Hq), reverse_snoc.
  f_equal. now apply IH.
Qed.

(** One pass of the drain over a payload that decodes: the pipeline is
    called once; the payload is gone if the run succeeded and back at the
    left end of the queue, unchanged, if it failed. *)
Lemma process_next_job_spec (env : Env) (w : World) (q : list string)
    (p : string) (m : pyval) :
  retraining_queue w = q ++ [p] ->
  decodes env p m ->
  exists t',
    process_next_job env w =
      (inr true,
       mkWorld (redis_kv w)
         (if run_succeeds (run_pipeline env (pipeline_runs w)) then q else p :: q)
         t' (S (pipeline_runs w)) (now w)) /\
    pipeline_calls t' = EvRunPipeline :: pipeline_calls (trace w) /\
    baseline_writes t' = baseline_writes (trace w).
Proof.
  intros Hq [Hp Heval].
  unfold process_next_job, bind.
  rewrite (rpop_snoc _ _ _ Hq), (truthy_nonempty _ Hp).
  destruct (Heval (with_queue q w)) as (items & -> & Hm).
  unfold py_getitem, getitem. rewrite Hm. unfold ret, log, emit. simpl.
  match goal with
  | |- context [_run_retraining env m ?w0] =>
      destruct (run_retraining_spec env m w0) as (new & -> & Hnew)
  end.
  simpl.
  destruct (run_succeeds (run_pipeline env (pipeline_runs w))); simpl;
    eexists; (split; [reflexivity|]); simpl;
    rewrite pipeline_calls_text, baseline_writes_text by exact Hnew;
    split; reflexivity.
Qed.

Lemma process_next_job_empty (env : Env) (w : World) :
  retraining_queue w = [] -> process_next_job env w = (inr false, w).
Proof.
  intros Hq. unfold process_next_job, bind. now rewrite (rpop_empty _ Hq).
Qed.

Lemma all_decode_requeue (env : Env) (q : list string) (p : string) :
  all_decode env (q ++ [p]) -> all_decode env q /\ all_decode env (p :: q).
Proof.
  unfold all_decode. rewrite Forall_app.
  intros [Hq Hp]. inversion Hp; subst. split; [assumption|].
  now constructor.
Qed.

Lemma failed_runs_S (env : Env) (from count : nat) :
  failed_runs env from (S count) =
    (if run_succeeds (run_pipeline env from) then 0 else 1) +
    failed_runs env (S from) count.
Proof.
  unfold failed_runs. simpl.
  now destruct (run_succeeds (run_pipeline env from)).
Qed.

Lemma while_true_S (fuel : nat) (body : M bool) (w : World) :
  while_true (S fuel) body w =
    match body w with
    | (inl e, w') => Some (inl e, w')
    | (inr false, w') => Some (inr tt, w')
    | (inr true, w') => while_true fuel body w'
    end.
Proof. reflexivity. Qed.

(** If the pipeline succeeds from its [N]-th call on, the drain loop ends:
    after [n] passes over jobs and one over the empty queue, where [n] is
    the number of jobs at the start plus the number of failed runs. *)
Lemma drain_terminates (env : Env) (N : nat) :
  (forall i, N <= i -> run_succeeds (run_pipeline env i) = true) ->
  forall k w,
    length (retraining_queue w) + (N - pipeline_runs w) <= k ->
    all_decode env (retraining_queue w) ->
    exists n w',
      while_true (S n) (process_next_job env) w = Some (inr tt, w') /\
      retraining_queue w' = [] /\
      redis_kv w' = redis_kv w /\
      pipeline_runs w' = pipeline_runs w + n /\
      n = length (retraining_queue w) + failed_runs env (pipeline_runs w) n.
Proof.
  intros Hlate. induction k as [|k IH]; intros w Hk Hdec.
  - exists 0, w. destruct (retraining_queue w) eqn:Hq; [|simpl in Hk; lia].
    rewrite while_true_S, (process_next_job_empty _ _ Hq).
    repeat split; try done; try lia.
  - destruct (retraining_queue w) as [|p q _] eqn:Hq using rev_ind.
    + exists 0, w. rewrite while_true_S, (process_next_job_empty _ _ Hq).
      repeat split; try done; try lia.
    + destruct (all_decode_requeue _ _ _ Hdec) as [Hdq Hdpq].
      assert (exists m, decodes env p m) as [m Hm].
      { unfold all_decode in Hdpq. now inversion Hdpq. }
      destruct (process_next_job_spec env w q p m Hq Hm) as (t' & Hstep & _ & _).
      rewrite length_app in Hk. simpl in Hk.
      destruct (run_succeeds (run_pipeline env (pipeline_runs w))) eqn:Hok.
      * edestruct (IH (mkWorld (redis_kv w) q t' (S (pipeline_runs w)) (now w)))
          as (n & w' & Hloop & Hempty & Hkv & Hruns & Hn);
          [simpl; lia | exact Hdq |].
        exists (S n), w'. simpl in Hkv, Hruns, Hn.
        rewrite while_true_S, Hstep. split; [exact Hloop|].
        rewrite failed_runs_S, Hok, length_app. simpl.
        repeat split; try done; lia.
      * assert (pipeline_runs w < N).
        { destruct (Nat.lt_ge_cases (pipeline_runs w) N) as [?|Hge]; [done|].
          rewrite (Hlate _ Hge) in Hok. discriminate. }
        edestruct (IH (mkWorld (redis_kv w) (p :: q) t' (S (pipeline_runs w)) (now w)))
          as (n & w' & Hloop & Hempty & Hkv & Hruns & Hn);
          [simpl; lia | exact Hdpq |].
        exists (S n), w'. simpl in Hkv, Hruns, Hn.
        rewrite while_true_S, Hstep. split; [exact Hloop|].
        rewrite failed_runs_S, Hok, length_app. simpl.
        repeat split; try done; lia.
Qed.



Lemma failed_runs_none (env : Env) (from count : nat) :
  (forall i, from <= i -> run_succeeds (run_pipeline env i) = true) ->
  failed_runs env from count = 0.
Proof.
  revert from. induction count as [|count IH]; intros from Hok; [reflexivity|].
  rewrite failed_runs_S, Hok by lia. simpl.
  apply IH. intros i Hi. apply Hok. lia.
Qed.

(** In the laboratory the rendering of [price_job] decodes to it. *)
Lemma price_job_decodes (outcomes : nat -> PipelineOutcome)
    (predictions : string -> PyExc + DataFrame)
    (features : string -> nat -> PyExc + DataFrame) :
  decodes (lab [(py_repr price_job, ret price_job)] outcomes predictions features)
    (py_repr price_job) (VStr "price_prediction").
Proof.
  split; [discriminate|].
  intros w. eexists. split; reflexivity.
Qed.


(** ** C2: requeue on failure *)

(** C2, as the specification words it, fails: the job that monitoring
    queued for the price model has no attempt count, and after a failed run
    the payload back in the queue is the one that was taken out, so
    whatever reads an attempt count from a payload reads the same value
    before and after, not one more. *)
Lemma C2_requeue_counterexample :
  (exists items,
     fst (py_eval failing_lab (py_repr price_job) queued_world) = inr (VDict items) /\
     assoc "attempt_count" items = None) /\
  run_succeeds (run_pipeline failing_lab (pipeline_runs queued_world)) = false /\
  retraining_queue queued_world = [py_repr price_job] /\
  retraining_queue (snd (process_next_job failing_lab queued_world))
    = [py_repr price_job] /\
  (forall (attempt_count : string -> Z) (before after : string),
     retraining_queue queued_world = [before] ->
     retraining_queue (snd (process_next_job failing_lab queued_world)) = [after] ->
     attempt_count after <> (attempt_count before + 1)%Z).
Proof.
  split; [eexists; split; reflexivity|].
  split; [reflexivity|]. split; [reflexivity|]. split; [reflexivity|].
  intros attempt_count before after [= <-] [= <-]. lia.
Qed.

(** C2, amended.  Whenever the training run of a dequeued job fails, the
    payload that was taken out is put back unchanged at the tail of the
    queue (there is no attempt count to increment), and it is dequeued
    again after the payloads that were queued behind it. *)
Theorem C2_requeue_unchanged (env : Env) (w : World) (q : list string)
    (p : string) (m : pyval) :
  retraining_queue w = q ++ [p] ->
  decodes env p m ->
  run_succeeds (run_pipeline env (pipeline_runs w)) = false ->
  fst (process_next_job env w) = inr true /\
  retraining_queue (snd (process_next_job env w)) = p :: q /\
  rpop_all (S (length q)) (snd (process_next_job env w)) = reverse q ++ [p].
Proof.
  intros Hq Hm Hfail.
  destruct (process_next_job_spec env w q p m Hq Hm) as (t' & -> & _ & _).
  rewrite Hfail. simpl fst. simpl snd. split; [reflexivity|].
  split; [reflexivity|].
  rewrite <- reverse_cons. now apply (rpop_all_order (p :: q)).
Qed.

Lemma C2_requeue_unchanged_witness :
  fst (process_next_job failing_lab queued_world) = inr true /\
  retraining_queue (snd (process_next_job failing_lab queued_world))
    = [py_repr price_job] /\
  rpop_all 1 (snd (process_next_job failing_lab queued_world))
    = [py_repr price_job].
Proof.
  apply (C2_requeue_unchanged failing_lab queued_world [] (py_repr price_job)
           (VStr "price_prediction")).
  - reflexivity.
  - apply price_job_decodes.
  - reflexivity.
Defined.

(** ** C3: no attempt ceiling *)




(** ** C4: termination of the drain *)




(** ** C1: the queue payload *)

Lemma trigger_retraining_spec (env : Env) (model_name : string)
    (r : MonitoringResult) (found : list string) (w : World) :
  issues r = Some found ->
  exists t',
    _trigger_retraining env model_name r w =
      (inr tt,
       mkWorld (redis_kv w)
         (py_str env (retraining_data model_name found (metrics r) (now w))
            :: retraining_queue w)
         t' (pipeline_runs w) (now w)) /\
    baseline_writes t' = baseline_writes (trace w) /\
    pipeline_calls t' = pipeline_calls (trace w).
Proof.
  intros Hissues.
  unfold _trigger_retraining, try_except, bind, log, emit, get_now, redis_lpush.
  rewrite Hissues. simpl.
  match goal with
  | |- context [_send_alert_email env ?s ?m ?w0] =>
      destruct (send_alert_email_spec env s m w0) as (new & -> & Hnew)
  end.
  simpl. eexists. split; [reflexivity|]. simpl.
  rewrite baseline_writes_text, pipeline_calls_text by exact Hnew.
  split; reflexivity.
Qed.

Lemma hostile_payload_is_no_rendering (v : pyval) : py_repr v <> hostile_payload.
Proof. destruct v as [| [] | | [] | |]; discriminate. Qed.




(** ** C10: the training invocation does not depend on the model *)

Lemma send_alert_email_eq (env : Env) (subject message : Text) (w : World) :
  _send_alert_email env subject message w =
    (inr tt, mkWorld (redis_kv w) (retraining_queue w)
               (email_events env subject message ++ trace w)
               (pipeline_runs w) (now w)).
Proof.
  unfold _send_alert_email, email_events, try_except, bind, log, emit, raise.
  destruct (truthy (sender_email env)); [|reflexivity].
  now destruct (smtp_error env).
Qed.

Lemma run_retraining_eq (env : Env) (model_name : pyval) (w : World) :
  _run_retraining env model_name w =
    (inr (run_succeeds (run_pipeline env (pipeline_runs w))),
     mkWorld (redis_kv w) (retraining_queue w)
       (run_events env model_name (run_pipeline env (pipeline_runs w))
        ++ EvRunPipeline
        :: EvLog INFO (mkText "Starting retraining for {}" [model_name])
        :: trace w)
       (S (pipeline_runs w)) (now w)).
Proof.
  unfold _run_retraining, run_events, run_succeeds, try_except, bind,
    call_run_pipeline, log, emit.
  cbn [pipeline_runs].
  destruct (run_pipeline env (pipeline_runs w)) as [result|e]; [|reflexivity].
  unfold getitem, ret, raise.
  destruct (assoc "status" result) as [v|]; [|reflexivity].
  destruct (pyval_is_str v "success"); now rewrite send_alert_email_eq.
Qed.

Lemma email_events_text (env : Env) (subject message : Text) :
  forallb is_text (email_events env subject message) = true.
Proof.
  unfold email_events. destruct (truthy (sender_email env)); [|reflexivity].
  now destruct (smtp_error env).
Qed.

Lemma run_events_text (env : Env) (model_name : pyval) (o : PipelineOutcome) :
  forallb is_text (run_events env model_name o) = true.
Proof.
  unfold run_events. destruct o as [result|e]; [|reflexivity].
  destruct (assoc "status" result) as [v|]; [|reflexivity].
  destruct (pyval_is_str v "success"); apply email_events_text.
Qed.

(** The events of a run are the same for two model names, up to the values
    interpolated into their text. *)
Lemma run_events_redact (env : Env) (m1 m2 : pyval) (o : PipelineOutcome) :
  map redact (run_events env m1 o) = map redact (run_events env m2 o).
Proof.
  unfold run_events, email_events. destruct o as [result|e]; [|reflexivity].
  destruct (assoc "status" result) as [v|]; [|reflexivity].
  destruct (pyval_is_str v "success");
    (destruct (truthy (sender_email env)); [|reflexivity]);
    now destruct (smtp_error env).
Qed.

(** C10.  For two queued jobs that differ only in their model name, a pass
    of the drain does the same: it calls the pipeline once, a call that
    takes no argument, gets the same outcome and leaves the same stores;
    the two traces are equal up to the values interpolated into log
    records and notifications; and on failure each payload goes back to
    the queue. *)
Theorem C10_training_ignores_model_name (env : Env) (p1 p2 : string)
    (m1 m2 : pyval) (other : list (string * pyval)) (q : list string)
    (w : World) :
  p1 <> "" -> p2 <> "" ->
  (forall w', py_eval env p1 w' = (inr (VDict (("model_name", m1) :: other)), w')) ->
  (forall w', py_eval env p2 w' = (inr (VDict (("model_name", m2) :: other)), w')) ->
  fst (process_next_job env (with_queue (q ++ [p1]) w))
    = fst (process_next_job env (with_queue (q ++ [p2]) w)) /\
  pipeline_calls (trace (snd (process_next_job env (with_queue (q ++ [p1]) w))))
    = EvRunPipeline :: pipeline_calls (trace w) /\
  pipeline_calls (trace (snd (process_next_job env (with_queue (q ++ [p2]) w))))
    = EvRunPipeline :: pipeline_calls (trace w) /\
  pipeline_runs (snd (process_next_job env (with_queue (q ++ [p1]) w)))
    = pipeline_runs (snd (process_next_job env (with_queue (q ++ [p2]) w))) /\
  redis_kv (snd (process_next_job env (with_queue (q ++ [p1]) w)))
    = redis_kv (snd (process_next_job env (with_queue (q ++ [p2]) w))) /\
  map redact (trace (snd (process_next_job env (with_queue (q ++ [p1]) w))))
    = map redact (trace (snd (process_next_job env (with_queue (q ++ [p2]) w)))) /\
  (retraining_queue (snd (process_next_job env (with_queue (q ++ [p1]) w))) = q /\
   retraining_queue (snd (process_next_job env (with_queue (q ++ [p2]) w))) = q
   \/
   retraining_queue (snd (process_next_job env (with_queue (q ++ [p1]) w))) = p1 :: q /\
   retraining_queue (snd (process_next_job env (with_queue (q ++ [p2]) w))) = p2 :: q).
Proof.
  intros Hp1 Hp2 He1 He2.
  assert (Hpass : forall p m,
    p <> "" ->
    (forall w', py_eval env p w' = (inr (VDict (("model_name", m) :: other)), w')) ->
    process_next_job env (with_queue (q ++ [p]) w) =
      (inr true,
       mkWorld (redis_kv w)
         (if run_succeeds (run_pipeline env (pipeline_runs w)) then q else p :: q)
         (EvLog (if run_succeeds (run_pipeline env (pipeline_runs w))
                 then INFO else ERROR)
            (mkText (if run_succeeds (run_pipeline env (pipeline_runs w))
                     then "Retraining completed for {}"
                     else "Retraining failed for {}") [m])
          :: run_events env m (run_pipeline env (pipeline_runs w))
          ++ EvRunPipeline
          :: EvLog INFO (mkText "Starting retraining for {}" [m])
          :: EvLog INFO (mkText "Processing retraining job for {}" [m])
          :: trace w)
         (S (pipeline_runs w)) (now w))).
  { intros p m Hp He. unfold process_next_job, bind.
    rewrite (rpop_snoc (with_queue (q ++ [p]) w) q p eq_refl).
    rewrite (truthy_nonempty _ Hp), He.
    unfold py_getitem, getitem, ret, log, emit, with_queue.
    cbn [assoc String.eqb Ascii.eqb Bool.eqb redis_kv retraining_queue trace
         pipeline_runs now].
    rewrite run_retraining_eq.
    cbn [redis_kv retraining_queue trace pipeline_runs now].
    now destruct (run_succeeds (run_pipeline env (pipeline_runs w))). }
  rewrite (Hpass p1 m1 Hp1 He1), (Hpass p2 m2 Hp2 He2).
  cbn [fst snd redis_kv retraining_queue trace pipeline_runs now].
  assert (Htext : forall m,
    forallb is_text (run_events env m (run_pipeline env (pipeline_runs w))) = true)
    by (intros m; apply run_events_text).
  split; [reflexivity|].
  split. { simpl. now rewrite pipeline_calls_text. }
  split. { simpl. now rewrite pipeline_calls_text. }
  split; [reflexivity|]. split; [reflexivity|].
  split.
  { rewrite !map_cons, !map_app, !map_cons.
    rewrite (run_events_redact env m1 m2).
    now destruct (run_succeeds (run_pipeline env (pipeline_runs w))). }
  destruct (run_succeeds (run_pipeline env (pipeline_runs w))); [left|right];
    split; reflexivity.
Qed.

Lemma C10_training_ignores_model_name_witness :
  fst (process_next_job two_jobs_lab (with_queue [py_repr price_job] world0))
    = fst (process_next_job two_jobs_lab (with_queue [py_repr disease_job] world0)) /\
  pipeline_calls
    (trace (snd (process_next_job two_jobs_lab (with_queue [py_repr price_job] world0))))
    = [EvRunPipeline] /\
  pipeline_calls
    (trace (snd (process_next_job two_jobs_lab (with_queue [py_repr disease_job] world0))))
    = [EvRunPipeline].
Proof.
  destruct (C10_training_ignores_model_name two_jobs_lab
              (py_repr price_job) (py_repr disease_job)
              (VStr "price_prediction") (VStr "disease_detection")
              [ ("issues", VList [VStr "MAPE too high: 20.00%"]);
                ("metrics", VDict []);
                ("triggered_at", VStr "2024-01-01T00:00:00") ]
              [] world0)
    as (Hfst & Hc1 & Hc2 & _).
  - discriminate.
  - discriminate.
  - intros w'. reflexivity.
  - intros w'. reflexivity.
  - exact (conj Hfst (conj Hc1 Hc2)).
Defined.

(** ** C5 and C6: one model's evaluation *)

Lemma trigger_never_raises (env : Env) (model_name : string)
    (r : MonitoringResult) (w : World) :
  fst (_trigger_retraining env model_name r w) = inr tt.
Proof.
  destruct (issues r) as [found|] eqn:Hissues.
  - now destruct (trigger_retraining_spec env model_name r found w Hissues)
      as (t' & -> & _).
  - unfold _trigger_retraining, try_except, bind, log, emit, raise.
    now rewrite Hissues.
Qed.

Lemma store_results_never_raises (env : Env)
    (results : gmap string MonitoringResult) (w : World) :
  fst (_store_monitoring_results env results w) = inr tt.
Proof.
  unfold _store_monitoring_results, try_except, bind, log, emit, raise.
  now destruct (db_insert_error env).
Qed.

(** One pass of the loop over the models never raises: the entry it
    stores is the result of the model's evaluation, or a result with status
    'error' if the evaluation raised. *)
Lemma monitor_one_spec (env : Env) (model_name : string)
    (results : gmap string MonitoringResult) (w : World) :
  exists r,
    fst (monitor_one env model_name results w) = inr (<[model_name := r]> results) /\
    match _monitor_single_model env model_name w with
    | (inr r', _) => r = r'
    | (inl e, _) => r = error_result e
    end.
Proof.
  unfold monitor_one, try_except, bind.
  destruct (_monitor_single_model env model_name w) as [[e|r] w1].
  - exists (error_result e). split; reflexivity.
  - exists r. split; [|reflexivity].
    destruct (needs_retraining r); [|reflexivity].
    unfold log, emit. simpl.
    match goal with
    | |- context [_trigger_retraining env model_name r ?w0] =>
        pose proof (trigger_never_raises env model_name r w0) as Htr;
        destruct (_trigger_retraining env model_name r w0) as [[e|[]] w2]
    end; [discriminate | reflexivity].
Qed.

Lemma monitor_each_spec (env : Env) (names : list string) :
  NoDup names ->
  forall results w,
    exists results',
      fst (monitor_each env names results w) = inr results' /\
      (forall name, name ∈ names ->
         exists w_i,
           match _monitor_single_model env name w_i with
           | (inr r, _) => results' !! name = Some r
           | (inl e, _) => results' !! name = Some (error_result e)
           end) /\
      (forall name, name ∉ names -> results' !! name = results !! name).
Proof.
  induction 1 as [|name names Hnotin Hnodup IH]; intros results w.
  - exists results. split; [reflexivity|]. split; [|done].
    intros name Hin. inversion Hin.
  - simpl. unfold bind.
    destruct (monitor_one_spec env name results w) as (r & Hfst & Hr).
    destruct (monitor_one env name results w) as [res1 w1].
    simpl in Hfst. subst res1.
    destruct (IH (<[name := r]> results) w1) as (results' & Hrest & Hin & Hout).
    exists results'. split; [exact Hrest|]. split.
    + intros name' Hin'. apply elem_of_cons in Hin' as [->|Hin'].
      * exists w. rewrite (Hout name Hnotin), lookup_insert_eq.
        destruct (_monitor_single_model env name w) as [[e|r'] w']; now subst.
      * now apply Hin.
    + intros name' Hnotin'. apply not_elem_of_cons in Hnotin' as [Hne Hnotin'].
      rewrite (Hout name' Hnotin'). now apply lookup_insert_ne.
Qed.

(** C5.  When the predictions fetched for a model are fewer than the
    model's [min_samples], the evaluation returns, having done nothing but
    write its first log record, a result with status 'insufficient_data',
    no metrics, no issues and [needs_retraining] false; this holds whatever
    the metric and threshold code would do, so that code is not run.  The
    monitoring loop stores that result and triggers no retraining: queue,
    key-value store and notifications are as before. *)
Theorem C5_insufficient_data (env : Env) (model_name : string)
    (data : DataFrame) (min_samples : Q)
    (results : gmap string MonitoringResult) (w : World) :
  fetch_predictions env model_name = inr data ->
  lookup_threshold model_name "min_samples" = inr min_samples ->
  (Np.of_nat (df_len data) < min_samples)%Q ->
  let r := insufficient_data (df_len data) in
  let w' := snd (log INFO "Monitoring {} model" [VStr model_name] w) in
  status r = "insufficient_data" /\ needs_retraining r = false /\
  metrics r = None /\
  _monitor_single_model env model_name w = (inr r, w') /\
  monitor_one env model_name results w = (inr (<[model_name := r]> results), w') /\
  retraining_queue w' = retraining_queue w /\
  redis_kv w' = redis_kv w /\
  trace w' = EvLog INFO (mkText "Monitoring {} model" [VStr model_name]) :: trace w.
Proof.
  intros Hfetch Hmin Hlt r w'.
  assert (Hsingle : _monitor_single_model env model_name w = (inr r, w')).
  { unfold _monitor_single_model, _get_recent_predictions, bind, log, emit.
    rewrite Hfetch, Hmin. simpl.
    destruct (Qlt_le_dec (Np.of_nat (df_len data)) min_samples) as [_|Hle];
      [reflexivity|].
    exfalso. exact (Qlt_not_le _ _ Hlt Hle). }
  repeat split; try done.
  unfold monitor_one, try_except, bind. now rewrite Hsingle.
Qed.

Lemma C5_insufficient_data_witness :
  _monitor_single_model sparse_lab "disease_detection" world0
    = (inr (insufficient_data 50),
       snd (log INFO "Monitoring {} model" [VStr "disease_detection"] world0)) /\
  monitor_one sparse_lab "disease_detection" ∅ world0
    = (inr (<["disease_detection" := insufficient_data 50]> ∅),
       snd (log INFO "Monitoring {} model" [VStr "disease_detection"] world0)).
Proof.
  destruct (C5_insufficient_data sparse_lab "disease_detection" (mkDF 50 [])
              (500 # 1)%Q ∅ world0)
    as (_ & _ & _ & Hsingle & Hone & _).
  - reflexivity.
  - reflexivity.
  - reflexivity.
  - exact (conj Hsingle Hone).
Defined.

(** C6.  When the evaluation of a model raises, the monitoring loop
    catches the exception and stores for that model, and only under that
    model's name, a result with status 'error' and [needs_retraining]
    false, triggering nothing.  The cycle is not aborted: [monitor_models]
    returns a dictionary in which every monitored model has the entry its
    own evaluation produced (its result, or the 'error' result if it
    raised). *)
Theorem C6_error_isolation (env : Env) :
  (forall name results w e w1,
      _monitor_single_model env name w = (inl e, w1) ->
      status (error_result e) = "error" /\
      needs_retraining (error_result e) = false /\
      monitor_one env name results w =
        (inr (<[name := error_result e]> results),
         snd (log ERROR "Failed to monitor {}: {}" [VStr name; exc_val e] w1)) /\
      (forall other, other <> name ->
         (<[name := error_result e]> results) !! other = results !! other)) /\
  (forall w,
      exists results,
        fst (monitor_models env w) = inr results /\
        forall name, name ∈ monitored_models ->
          exists w_i,
            match _monitor_single_model env name w_i with
            | (inr r, _) => results !! name = Some r
            | (inl e, _) => results !! name = Some (error_result e)
            end).
Proof.
  split.
  - intros name results w e w1 Hraise. repeat split.
    + unfold monitor_one, try_except, bind. now rewrite Hraise.
    + intros other Hne. now apply lookup_insert_ne.
  - intros w. unfold monitor_models, bind, log, emit. cbv beta iota zeta.
    match goal with
    | |- context [monitor_each env monitored_models ∅ ?w0] =>
        destruct (monitor_each_spec env monitored_models) with (results := (∅ : gmap string MonitoringResult)) (w := w0)
          as (results & Hfst & Hin & _)
    end.
    { unfold monitored_models.
      repeat (apply NoDup_cons; split;
              [rewrite ?elem_of_cons, elem_of_nil; intuition discriminate|]).
      apply NoDup_nil_2. }
    exists results. split; [|exact Hin].
    match type of Hfst with
    | fst ?c = _ => destruct c as [res w1]
    end.
    simpl in Hfst. subst res.
    pose proof (store_results_never_raises env results w1) as Hstore.
    destruct (_store_monitoring_results env results w1) as [[e|[]] w2];
      [discriminate | reflexivity].
Qed.

Lemma C6_error_isolation_witness :
  monitor_one partial_lab "price_prediction" ∅ world0 =
    (inr (<["price_prediction" :=
              error_result (mkExc "OperationalError" "connection refused")]> ∅),
     snd (log ERROR "Failed to monitor {}: {}"
            [VStr "price_prediction"; VStr "connection refused"]
            (snd (log INFO "Monitoring {} model" [VStr "price_prediction"] world0)))).
Proof.
  apply (proj1 (C6_error_isolation partial_lab) "price_prediction" ∅ world0
           (mkExc "OperationalError" "connection refused")
           (snd (log INFO "Monitoring {} model" [VStr "price_prediction"] world0))).
  reflexivity.
Defined.

(** The run of the witness: the price model's query fails, and the two
    other models are evaluated all the same. *)
Example isolation_run :
  exists results,
    fst (monitor_models partial_lab world0) = inr results /\
    results !! "price_prediction"
      = Some (error_result (mkExc "OperationalError" "connection refused")) /\
    results !! "disease_detection" = Some (insufficient_data 50) /\
    results !! "recommendations" = Some (insufficient_data 50).
Proof. eexists. split; [reflexivity|]. repeat split; vm_compute; reflexivity. Qed.

(** ** C8: the baseline store *)

Lemma baselines_kept_refl (kv : gmap string string) : baselines_kept kv kv.
Proof. intros k v Hv. now apply truthy_Some in Hv as [-> _]. Qed.

Lemma baselines_kept_trans (kv1 kv2 kv3 : gmap string string) :
  baselines_kept kv1 kv2 -> baselines_kept kv2 kv3 -> baselines_kept kv1 kv3.
Proof.
  intros H12 H23 k v Hv. apply H23.
  pose proof (H12 k v Hv) as H2. apply truthy_Some in Hv as [_ Hne].
  rewrite H2. now apply truthy_nonempty.
Qed.

Lemma baselines_kept_insert (kv : gmap string string) (k v : string) :
  truthy (kv !! k) = None -> baselines_kept kv (<[k := v]> kv).
Proof.
  intros Hnone k' v' Hv'.
  destruct (decide (k = k')) as [<-|Hne]; [congruence|].
  rewrite lookup_insert_ne by done. now apply truthy_Some in Hv' as [-> _].
Qed.

(** Storing a baseline: one SET when the 30-day query returns rows, a log
    record when it raises, nothing when it returns no row. *)
Lemma store_baseline_spec (env : Env) (model_name : string) (w : World) :
  _store_baseline_features env model_name w =
    match fetch_features env model_name 30 with
    | inl e =>
        (inr tt, snd (log ERROR "Error storing baseline features: {}" [exc_val e] w))
    | inr df =>
        if df_empty df then (inr tt, w)
        else redis_set (baseline_key model_name) (to_json env (describe env df)) w
    end.
Proof.
  unfold _store_baseline_features, try_except, bind.
  destruct (fetch_features env model_name 30) as [e|df]; simpl; [reflexivity|].
  now destruct (df_empty df).
Qed.

Lemma check_drift_cold (env : Env) (model_name : string) (w : World) :
  truthy (redis_kv w !! baseline_key model_name) = None ->
  _check_feature_drift env model_name w =
    (inr [], snd (_store_baseline_features env model_name w)).
Proof.
  intros Hnone. unfold _check_feature_drift, bind, redis_get. rewrite Hnone.
  rewrite store_baseline_spec.
  destruct (fetch_features env model_name 30) as [e|df]; simpl; [reflexivity|].
  now destruct (df_empty df).
Qed.

(** A drift check against an existing baseline only adds log records. *)
Lemma check_drift_existing (env : Env) (model_name : string) (w : World)
    (baseline : string) :
  truthy (redis_kv w !! baseline_key model_name) = Some baseline ->
  exists found new,
    _check_feature_drift env model_name w =
      (inr found, mkWorld (redis_kv w) (retraining_queue w) (new ++ trace w)
                    (pipeline_runs w) (now w)) /\
    forallb is_text new = true.
Proof.
  intros Hsome. unfold _check_feature_drift, bind, redis_get. rewrite Hsome.
  destruct (read_json env baseline) as [e|baseline_stats].
  { unfold log, emit. simpl. now eexists [], [_]. }
  unfold _calculate_current_feature_stats, try_except, bind, log, emit.
  destruct (fetch_features env model_name 7) as [e|df]; simpl.
  - match goal with
    | |- context [drift_loop env model_name ?c ?b ?i] =>
        destruct (drift_loop env model_name c b i) as [found [e'|]]
    end; simpl; [now eexists found, [_; _] | now eexists found, [_]].
  - match goal with
    | |- context [drift_loop env model_name ?c ?b ?i] =>
        destruct (drift_loop env model_name c b i) as [found [e'|]]
    end; simpl; [now eexists found, [_] | exists found, []; destruct w; done].
Qed.

Lemma check_drift_keeps (env : Env) (model_name : string) (w : World) :
  baselines_kept (redis_kv w)
    (redis_kv (snd (_check_feature_drift env model_name w))).
Proof.
  destruct (truthy (redis_kv w !! baseline_key model_name)) as [b|] eqn:Hb.
  - destruct (check_drift_existing env model_name w b Hb) as (found & new & -> & _).
    apply baselines_kept_refl.
  - rewrite (check_drift_cold env model_name w Hb), store_baseline_spec.
    destruct (fetch_features env model_name 30) as [e|df]; simpl;
      [apply baselines_kept_refl|].
    destruct (df_empty df); simpl; [apply baselines_kept_refl|].
    now apply baselines_kept_insert.
Qed.

Lemma model_specific_world (env : Env) (model_name : string) (data : DataFrame)
    (w : World) :
  snd (model_specific env model_name data w) = w.
Proof.
  unfold model_specific, bind, lift, ret, raise.
  destruct (String.eqb model_name "price_prediction").
  { now destruct (_check_price_thresholds env _). }
  destruct (String.eqb model_name "disease_detection").
  { destruct (_calculate_disease_metrics env data) as [e|m]; [reflexivity|].
    now destruct (_check_disease_thresholds env m). }
  destruct (String.eqb model_name "recommendations"); [|reflexivity].
  destruct (_calculate_recommendation_metrics env data) as [e|m]; [reflexivity|].
  now destruct (_check_recommendation_thresholds env m).
Qed.

Lemma monitor_single_keeps (env : Env) (model_name : string) (w : World) :
  baselines_kept (redis_kv w)
    (redis_kv (snd (_monitor_single_model env model_name w))).
Proof.
  unfold _monitor_single_model, _get_recent_predictions, bind, log, emit, lift,
    ret, raise.
  simpl.
  destruct (fetch_predictions env model_name) as [e|data];
    [apply baselines_kept_refl|].
  destruct (lookup_threshold model_name "min_samples") as [e|min_samples];
    [apply baselines_kept_refl|].
  destruct (Qlt_le_dec (Np.of_nat (df_len data)) min_samples);
    [apply baselines_kept_refl|].
  match goal with
  | |- context [model_specific env model_name data ?w0] =>
      pose proof (model_specific_world env model_name data w0) as Hw;
      destruct (model_specific env model_name data w0) as [[e|specific] w1]
  end; simpl in Hw; subst w1; [apply baselines_kept_refl|].
  match goal with
  | |- context [_check_feature_drift env model_name ?w0] =>
      pose proof (check_drift_keeps env model_name w0) as Hk;
      destruct (_check_feature_drift env model_name w0) as [[e|found] w1]
  end; exact Hk.
Qed.

Lemma trigger_kv (env : Env) (model_name : string) (r : MonitoringResult)
    (w : World) :
  redis_kv (snd (_trigger_retraining env model_name r w)) = redis_kv w.
Proof.
  destruct (issues r) as [found|] eqn:Hissues.
  - now destruct (trigger_retraining_spec env model_name r found w Hissues)
      as (t' & -> & _).
  - unfold _trigger_retraining, try_except, bind, log, emit, raise.
    now rewrite Hissues.
Qed.

Lemma monitor_one_keeps (env : Env) (model_name : string)
    (results : gmap string MonitoringResult) (w : World) :
  baselines_kept (redis_kv w)
    (redis_kv (snd (monitor_one env model_name results w))).
Proof.
  unfold monitor_one, try_except, bind.
  pose proof (monitor_single_keeps env model_name w) as Hk.
  destruct (_monitor_single_model env model_name w) as [[e|r] w1];
    simpl in Hk; [exact Hk|].
  destruct (needs_retraining r); [|exact Hk].
  unfold log, emit. simpl.
  match goal with
  | |- context [_trigger_retraining env model_name r ?w0] =>
      pose proof (trigger_kv env model_name r w0) as Hkv;
      destruct (_trigger_retraining env model_name r w0) as [[e|[]] w2]
  end; simpl in *; now rewrite Hkv.
Qed.

Lemma monitor_each_keeps (env : Env) (names : list string) :
  forall results w,
    baselines_kept (redis_kv w)
      (redis_kv (snd (monitor_each env names results w))).
Proof.
  induction names as [|name names IH]; intros results w.
  - apply baselines_kept_refl.
  - simpl. unfold bind.
    pose proof (monitor_one_keeps env name results w) as Hk.
    destruct (monitor_one env name results w) as [[e|results1] w1];
      simpl in Hk; [exact Hk|].
    eapply baselines_kept_trans; [exact Hk | apply IH].
Qed.

Lemma monitor_models_keeps (env : Env) (w : World) :
  baselines_kept (redis_kv w) (redis_kv (snd (monitor_models env w))).
Proof.
  unfold monitor_models, bind, log, emit. cbv beta iota zeta.
  match goal with
  | |- context [monitor_each env monitored_models ∅ ?w0] =>
      pose proof (monitor_each_keeps env monitored_models ∅ w0) as Hk;
      destruct (monitor_each env monitored_models ∅ w0) as [[e|results] w1]
  end; simpl in Hk; [exact Hk|].
  unfold _store_monitoring_results, try_except, bind, log, emit, raise.
  destruct (db_insert_error env); exact Hk.
Qed.

(** C8, as the specification words it, fails: for a model with no stored
    baseline whose 30-day feature query returns no row, the drift check
    returns no issues and writes nothing, so the model still has no
    baseline afterwards. *)
Lemma C8_cold_start_counterexample :
  redis_kv world0 !! baseline_key "price_prediction" = None /\
  fst (_check_feature_drift no_features_lab "price_prediction" world0) = inr [] /\
  baseline_writes
    (trace (snd (_check_feature_drift no_features_lab "price_prediction" world0)))
    = [] /\
  redis_kv (snd (_check_feature_drift no_features_lab "price_prediction" world0))
    !! baseline_key "price_prediction" = None.
Proof. repeat split; reflexivity. Qed.

(** C8, amended.  For a model with no stored baseline a drift check
    returns no issues and writes the baseline at most once: exactly once,
    under the model's key, when the 30-day feature query returns at least
    one row, and not at all when it returns none (any empty frame, with or
    without named columns) or raises.  A drift check
    for a model whose baseline exists (a stored value that is not empty)
    writes nothing, so a second check after the first has stored a baseline
    does not rewrite it; and no stored baseline is overwritten by a
    monitoring pass over all models. *)
Theorem C8_baseline_written_once (env : Env) (model_name : string) (w : World) :
  (truthy (redis_kv w !! baseline_key model_name) = None ->
   fst (_check_feature_drift env model_name w) = inr [] /\
   (forall df,
       fetch_features env model_name 30 = inr df -> df_empty df = false ->
       let json := to_json env (describe env df) in
       let w1 := snd (_check_feature_drift env model_name w) in
       baseline_writes (trace w1)
         = (baseline_key model_name, json) :: baseline_writes (trace w) /\
       redis_kv w1 = <[baseline_key model_name := json]> (redis_kv w) /\
       (json <> "" ->
        let w2 := snd (_check_feature_drift env model_name w1) in
        baseline_writes (trace w2) = baseline_writes (trace w1) /\
        redis_kv w2 = redis_kv w1)) /\
   (((exists df, fetch_features env model_name 30 = inr df /\
                 df_empty df = true) \/
     (exists e, fetch_features env model_name 30 = inl e)) ->
    baseline_writes (trace (snd (_check_feature_drift env model_name w)))
      = baseline_writes (trace w) /\
    redis_kv (snd (_check_feature_drift env model_name w)) = redis_kv w)) /\
  (forall baseline,
      truthy (redis_kv w !! baseline_key model_name) = Some baseline ->
      baseline_writes (trace (snd (_check_feature_drift env model_name w)))
        = baseline_writes (trace w) /\
      redis_kv (snd (_check_feature_drift env model_name w)) = redis_kv w) /\
  baselines_kept (redis_kv w) (redis_kv (snd (monitor_models env w))).
Proof.
  assert (Hexisting : forall w0 baseline,
    truthy (redis_kv w0 !! baseline_key model_name) = Some baseline ->
    baseline_writes (trace (snd (_check_feature_drift env model_name w0)))
      = baseline_writes (trace w0) /\
    redis_kv (snd (_check_feature_drift env model_name w0)) = redis_kv w0).
  { intros w0 baseline Hb.
    destruct (check_drift_existing env model_name w0 baseline Hb)
      as (found & new & -> & Hnew).
    simpl. now rewrite baseline_writes_text. }
  split; [|split; [apply Hexisting | apply monitor_models_keeps]].
  intros Hnone. rewrite (check_drift_cold env model_name w Hnone).
  split; [reflexivity|]. rewrite store_baseline_spec. split.
  - intros df -> Hne. rewrite Hne. simpl.
    split; [reflexivity|]. split; [reflexivity|].
    intros Hjson. eapply Hexisting. simpl.
    rewrite lookup_insert_eq. now apply truthy_nonempty.
  - intros [(df & -> & Hempty) | [e ->]]; [rewrite Hempty|];
      simpl; split; reflexivity.
Qed.

Lemma C8_baseline_written_once_witness :
  fst (_check_feature_drift features_lab "price_prediction" world0) = inr [] /\
  baseline_writes
    (trace (snd (_check_feature_drift features_lab "price_prediction" world0)))
    = [("baseline_features:price_prediction", "['rainfall']")] /\
  baseline_writes
    (trace (snd (_check_feature_drift features_lab "price_prediction"
                   (snd (_check_feature_drift features_lab "price_prediction"
                           world0)))))
    = [("baseline_features:price_prediction", "['rainfall']")] /\
  df_empty (mkDF 0 [("rainfall", [])]) = true /\
  baseline_writes
    (trace (snd (_check_feature_drift empty_result_lab "price_prediction"
                   world0)))
    = [] /\
  redis_kv (snd (_check_feature_drift empty_result_lab "price_prediction"
                   world0))
    = redis_kv world0.
Proof.
  destruct (C8_baseline_written_once features_lab "price_prediction" world0)
    as (Hcold & _ & _).
  destruct (Hcold eq_refl) as (Hfst & Hwrite & _).
  destruct (Hwrite (mkDF 2 [("rainfall", [10; 12]%Q)]) eq_refl eq_refl)
    as (Hw1 & _ & Hsecond).
  split; [exact Hfst|]. split; [exact Hw1|].
  split; [destruct Hsecond as [Hw2 _]; [discriminate|];
          rewrite Hw2; exact Hw1|].
  split; [reflexivity|].
  destruct (C8_baseline_written_once empty_result_lab "price_prediction" world0)
    as (Hcold0 & _ & _).
  destruct (Hcold0 eq_refl) as (_ & _ & Hnone).
  apply Hnone. left. exists (mkDF 0 [("rainfall", [])]).
  split; reflexivity.
Defined.

(** * Further properties of the monitor's code *)

#[local] Set Warnings "-clear-no-such-hyp".

(** ** ThresholdPolicy *)









(** X3.  A batch that lacks the outcome columns of its model family gives
    an empty metrics dictionary, and on an empty dictionary every
    threshold check passes: such a batch raises no metric issue. *)
Theorem missing_columns_raise_no_issue (np_sqrt : Q -> Q)
    (format_float : nat -> Q -> string) (data : DataFrame) :
  (df_col "actual_price" data = None \/ df_col "predicted_price" data = None ->
   _calculate_price_metrics np_sqrt data = []) /\
  (df_col "actual_disease" data = None \/ df_col "predicted_disease" data = None ->
   Policy._calculate_disease_metrics data = []) /\
  (df_col "clicked" data = None ->
   Policy._calculate_recommendation_metrics data = inr []) /\
  Policy.finite_metrics [] = Some [] /\
  Policy._check_price_thresholds format_float [] = inr [] /\
  Policy._check_disease_thresholds format_float [] = inr [] /\
  Policy._check_recommendation_thresholds format_float [] = inr [].
Proof.
  repeat split.
  - unfold _calculate_price_metrics. intros [-> | ->]; [reflexivity|].
    now destruct (df_col "actual_price" data).
  - unfold Policy._calculate_disease_metrics. intros [-> | ->]; [reflexivity|].
    now destruct (df_col "actual_disease" data).
  - unfold Policy._calculate_recommendation_metrics. now intros ->.
Qed.

Lemma missing_columns_raise_no_issue_witness :
  _calculate_price_metrics (fun q => q) (mkDF 1200 [("price", [1%Q])]) = [] /\
  Policy._calculate_disease_metrics (mkDF 1200 [("price", [1%Q])]) = [] /\
  Policy._calculate_recommendation_metrics (mkDF 1200 [("price", [1%Q])]) = inr [].
Proof.
  destruct (missing_columns_raise_no_issue (fun q => q) (fun _ _ => "0.00")
              (mkDF 1200 [("price", [1%Q])]))
    as (Hprice & Hdisease & Hrec & _).
  split; [apply Hprice; now left|].
  split; [apply Hdisease; now left | now apply Hrec].
Defined.

(** ** MetricEvaluator: disease detection *)

Lemma div_by_positive (x y : Q) : (0 < y)%Q -> Np.div x y = Some (x / y)%Q.
Proof.
  intros Hy. unfold Np.div.
  destruct (Qeq_bool y 0) eqn:E; [|reflexivity].
  apply Qeq_bool_iff in E. rewrite E in Hy. now apply Qlt_irrefl in Hy.
Qed.

Lemma of_nat_nonneg (n : nat) : (0 <= Np.of_nat n)%Q.
Proof. unfold Np.of_nat, Qle. simpl. lia. Qed.

Lemma count_where_nonneg (mask : list bool) : (0 <= Policy.count_where mask)%Q.
Proof. apply of_nat_nonneg. Qed.

Lemma guarded_ratio (x y : Q) :
  (0 <= x)%Q -> (0 <= y)%Q ->
  (0 <= x / (x + y + Policy.eps_guard) <= 1)%Q.
Proof.
  intros Hx Hy.
  assert (Hd : (0 < x + y + Policy.eps_guard)%Q).
  { apply Qlt_le_trans with (y := Policy.eps_guard); [reflexivity|].
    rewrite <- (Qplus_0_l Policy.eps_guard) at 1.
    apply Qplus_le_l. rewrite <- (Qplus_0_l 0).
    now apply Qplus_le_compat. }
  split.
  - apply Qle_shift_div_l; [exact Hd|]. now rewrite Qmult_0_l.
  - apply Qle_shift_div_r; [exact Hd|]. rewrite Qmult_1_l.
    rewrite <- (Qplus_0_r x) at 1. rewrite <- Qplus_assoc.
    apply Qplus_le_r. apply Qle_trans with (y := Policy.eps_guard);
      [discriminate|].
    rewrite <- (Qplus_0_l Policy.eps_guard) at 1. now apply Qplus_le_l.
Qed.

Lemma guarded_ratio_positive (x y : Q) :
  (0 <= x)%Q -> (0 <= y)%Q -> (0 < x + y + Policy.eps_guard)%Q.
Proof.
  intros Hx Hy.
  apply Qlt_le_trans with (y := Policy.eps_guard); [reflexivity|].
  rewrite <- (Qplus_0_l Policy.eps_guard) at 1.
  apply Qplus_le_l. rewrite <- (Qplus_0_l 0).
  now apply Qplus_le_compat.
Qed.

Lemma f1_bounds (p r : Q) :
  (0 <= p <= 1)%Q -> (0 <= r <= 1)%Q ->
  (0 <= 2 * p * r / (p + r + Policy.eps_guard) <= 1)%Q.
Proof.
  intros [Hp0 Hp1] [Hr0 Hr1].
  pose proof (guarded_ratio_positive p r Hp0 Hr0) as Hd.
  split.
  - apply Qle_shift_div_l; [exact Hd|]. rewrite Qmult_0_l.
    apply Qmult_le_0_compat; [|exact Hr0].
    apply Qmult_le_0_compat; [discriminate | exact Hp0].
  - apply Qle_shift_div_r; [exact Hd|]. rewrite Qmult_1_l.
    apply Qle_trans with (y := (p + r)%Q).
    + assert (H1 : (p * r <= p)%Q).
      { rewrite <- (Qmult_1_r p) at 2. rewrite (Qmult_comm p r), (Qmult_comm p 1).
        now apply Qmult_le_compat_r. }
      assert (H2 : (p * r <= r)%Q).
      { rewrite <- (Qmult_1_l r) at 2. now apply Qmult_le_compat_r. }
      assert (E : (2 * p * r == p * r + p * r)%Q) by ring.
      rewrite E. now apply Qplus_le_compat.
    + rewrite <- (Qplus_0_r (p + r)) at 1. apply Qplus_le_r. discriminate.
Qed.

Lemma guarded_disease_metrics (actual predicted : list Q) :
  exists p r f,
    Policy.precision actual predicted = Some p /\
    Policy.recall actual predicted = Some r /\
    Policy.f1_score actual predicted = Some f /\
    (0 <= p <= 1)%Q /\ (0 <= r <= 1)%Q /\ (0 <= f <= 1)%Q /\
    ((Policy.true_positives actual predicted == 0)%Q ->
     (p == 0)%Q /\ (r == 0)%Q /\ (f == 0)%Q).
Proof.
  set (tp := Policy.true_positives actual predicted).
  set (fp := Policy.false_positives actual predicted).
  set (fn := Policy.false_negatives actual predicted).
  assert (Htp : (0 <= tp)%Q) by apply count_where_nonneg.
  assert (Hfp : (0 <= fp)%Q) by apply count_where_nonneg.
  assert (Hfn : (0 <= fn)%Q) by apply count_where_nonneg.
  pose proof (guarded_ratio tp fp Htp Hfp) as Hp.
  pose proof (guarded_ratio tp fn Htp Hfn) as Hr.
  exists (tp / (tp + fp + Policy.eps_guard))%Q,
         (tp / (tp + fn + Policy.eps_guard))%Q.
  eexists.
  assert (Eprec : Policy.precision actual predicted
                  = Some (tp / (tp + fp + Policy.eps_guard))%Q).
  { unfold Policy.precision. fold tp fp.
    now rewrite div_by_positive by now apply guarded_ratio_positive. }
  assert (Erec : Policy.recall actual predicted
                 = Some (tp / (tp + fn + Policy.eps_guard))%Q).
  { unfold Policy.recall. fold tp fn.
    now rewrite div_by_positive by now apply guarded_ratio_positive. }
  split; [exact Eprec|]. split; [exact Erec|].
  split.
  { unfold Policy.f1_score. rewrite Eprec, Erec.
    apply div_by_positive.
    apply guarded_ratio_positive; [apply Hp | apply Hr]. }
  split; [exact Hp|]. split; [exact Hr|].
  split; [now apply f1_bounds|].
  intros Hzero.
  assert (Hp0 : (tp / (tp + fp + Policy.eps_guard) == 0)%Q)
    by (rewrite Hzero; unfold Qdiv; ring).
  assert (Hr0 : (tp / (tp + fn + Policy.eps_guard) == 0)%Q)
    by (rewrite Hzero; unfold Qdiv; ring).
  split; [exact Hp0|]. split; [exact Hr0|].
  rewrite Hp0. unfold Qdiv. ring.
Qed.

(** X4.  The precision, recall and F1 of the disease metrics are always
    finite: their denominators carry the 1e-7 guard and cannot be zero.
    Each lies between 0 and 1, and when there is no true positive all
    three are 0. *)
Theorem disease_metrics_are_guarded (actual predicted : list Q) :
  exists p r f,
    Policy.precision actual predicted = Some p /\
    Policy.recall actual predicted = Some r /\
    Policy.f1_score actual predicted = Some f /\
    (0 <= p <= 1)%Q /\ (0 <= r <= 1)%Q /\ (0 <= f <= 1)%Q /\
    ((Policy.true_positives actual predicted == 0)%Q ->
     (p == 0)%Q /\ (r == 0)%Q /\ (f == 0)%Q).
Proof. apply guarded_disease_metrics. Qed.

Lemma disease_metrics_are_guarded_witness :
  exists p r f,
    Policy.precision [1; 0; 0]%Q [0; 0; 0]%Q = Some p /\
    Policy.recall [1; 0; 0]%Q [0; 0; 0]%Q = Some r /\
    Policy.f1_score [1; 0; 0]%Q [0; 0; 0]%Q = Some f /\
    (p == 0)%Q /\ (r == 0)%Q /\ (f == 0)%Q.
Proof.
  destruct (disease_metrics_are_guarded [1; 0; 0]%Q [0; 0; 0]%Q)
    as (p & r & f & Hp & Hr & Hf & _ & _ & _ & Hzero).
  exists p, r, f. split; [exact Hp|]. split; [exact Hr|]. split; [exact Hf|].
  apply Hzero. reflexivity.
Defined.

Lemma mapM_id_Some (l : list Q) : mapM id (map Some l) = Some l.
Proof. induction l as [|x l IH]; simpl; [reflexivity|]. now rewrite IH. Qed.

Lemma mean_of_finite (x : Q) (l : list Q) :
  Np.mean (map Some (x :: l))
    = Some (Np.sum (x :: l) / Np.of_nat (length (x :: l)))%Q.
Proof. unfold Np.mean. now rewrite mapM_id_Some. Qed.

Lemma zip_with_Some {A B : Type} (f : A -> B -> Q) (xs : list A) (ys : list B) :
  zip_with (fun a b => Some (f a b)) xs ys = map Some (zip_with f xs ys).
Proof.
  revert ys. induction xs as [|a xs IH]; intros [|b ys]; simpl; try reflexivity.
  now rewrite IH.
Qed.

(** X5.  A classification batch without a single true positive gets an
    F1 of 0 through the guarded denominators, not a division error, and
    the disease threshold check then reports the F1 issue. *)
Theorem no_true_positive_raises_f1_issue (format_float : nat -> Q -> string)
    (data : DataFrame) (actual predicted : list Q) :
  df_col "actual_disease" data = Some actual ->
  df_col "predicted_disease" data = Some predicted ->
  actual <> [] -> predicted <> [] ->
  (Policy.true_positives actual predicted == 0)%Q ->
  exists fm found f,
    Policy.finite_metrics (Policy._calculate_disease_metrics data) = Some fm /\
    Policy._check_disease_thresholds format_float fm = inr found /\
    (f == 0)%Q /\
    In ("F1 score too low: " ++ format_float 2 f)%string found.
Proof.
  intros Ha Hp Hane Hpne Hzero.
  destruct (guarded_disease_metrics actual predicted)
    as (p & r & f & Eprec & Erec & Ef1 & _ & _ & _ & Hz).
  destruct (Hz Hzero) as (_ & _ & Hf0).
  assert (exists acc, Policy.accuracy actual predicted = Some acc) as [acc Eacc].
  { unfold Policy.accuracy. rewrite zip_with_Some.
    destruct actual as [|a actual]; [done|].
    destruct predicted as [|b predicted]; [done|].
    simpl zip_with. rewrite mean_of_finite. eauto. }
  unfold Policy._calculate_disease_metrics. rewrite Ha, Hp, Eacc, Eprec, Erec, Ef1.
  assert (Hlt : Policy.lt f (7 # 10) = true).
  { unfold Policy.lt. destruct (Qlt_le_dec f (7 # 10)) as [|Hle]; [reflexivity|].
    rewrite Hf0 in Hle. exfalso. now apply Hle. }
  set (fm := [ ("accuracy", acc); ("precision", p); ("recall", r);
               ("f1_score", f); ("sample_count", Np.of_nat (df_len data)) ]).
  assert (Hcheck :
    Policy._check_disease_thresholds format_float fm =
      inr ((if Policy.lt acc (85 # 100)
            then ["Accuracy too low: " ++ format_float 2 acc]%string else [])
           ++ ["F1 score too low: " ++ format_float 2 f]%string)).
  { unfold Policy._check_disease_thresholds, Policy.check, Policy.shown,
      Policy.get, fm.
    change (lookup_threshold "disease_detection" "accuracy_threshold")
      with (inr (85 # 100)%Q : PyExc + Q).
    cbn [assoc String.eqb Ascii.eqb Bool.eqb default].
    cbv beta iota. unfold id. rewrite Hlt.
    now destruct (Policy.lt acc (85 # 100)). }
  exists fm. eexists. exists f.
  split; [reflexivity|]. split; [exact Hcheck|]. split; [exact Hf0|].
  apply in_or_app. right. now left.
Qed.

Lemma no_true_positive_raises_f1_issue_witness :
  exists fm found f,
    Policy.finite_metrics
      (Policy._calculate_disease_metrics
         (mkDF 3 [("actual_disease", [1; 0; 0]%Q);
                  ("predicted_disease", [0; 0; 0]%Q)])) = Some fm /\
    Policy._check_disease_thresholds (fun _ _ => "0.00") fm = inr found /\
    (f == 0)%Q /\
    In "F1 score too low: 0.00" found.
Proof.
  apply (no_true_positive_raises_f1_issue (fun _ _ => "0.00")
           (mkDF 3 [("actual_disease", [1; 0; 0]%Q);
                    ("predicted_disease", [0; 0; 0]%Q)])
           [1; 0; 0]%Q [0; 0; 0]%Q); try reflexivity; discriminate.
Defined.

(** ** Bounds of the metrics *)

Lemma of_nat_S (n : nat) : (Np.of_nat (S n) == 1 + Np.of_nat n)%Q.
Proof.
  unfold Np.of_nat. rewrite Nat2Z.inj_succ. unfold Z.succ.
  rewrite inject_Z_plus. ring.
Qed.

Lemma sum_of_fractions (l : list Q) :
  Forall (fun x => (0 <= x <= 1)%Q) l ->
  (0 <= Np.sum l <= Np.of_nat (length l))%Q.
Proof.
  induction 1 as [|x l [Hx0 Hx1] _ [IH0 IH1]].
  - simpl. split; [discriminate | apply of_nat_nonneg].
  - change (Np.sum (x :: l)) with (x + Np.sum l)%Q.
    change (length (x :: l)) with (S (length l)). rewrite of_nat_S. split.
    + rewrite <- (Qplus_0_l 0). now apply Qplus_le_compat.
    + now apply Qplus_le_compat.
Qed.

Lemma of_nat_S_positive (n : nat) : (0 < Np.of_nat (S n))%Q.
Proof. unfold Np.of_nat, Qlt. simpl. lia. Qed.

(** The mean of values between 0 and 1 lies between 0 and 1. *)
Lemma mean_of_fractions (l : list Q) (m : Q) :
  Forall (fun x => (0 <= x <= 1)%Q) l ->
  Np.mean (map Some l) = Some m -> (0 <= m <= 1)%Q.
Proof.
  intros Hall. destruct l as [|x l]; [discriminate|].
  rewrite mean_of_finite. intros [= <-].
  destruct (sum_of_fractions _ Hall) as [H0 H1].
  pose proof (of_nat_S_positive (length l)) as Hn. split.
  - apply Qle_shift_div_l; [exact Hn|]. now rewrite Qmult_0_l.
  - apply Qle_shift_div_r; [exact Hn|]. now rewrite Qmult_1_l.
Qed.

Lemma indicators_are_fractions {A B : Type} (f : A -> B -> bool)
    (xs : list A) (ys : list B) :
  Forall (fun x => (0 <= x <= 1)%Q)
    (zip_with (fun a b => Np.of_bool (f a b)) xs ys).
Proof.
  revert ys. induction xs as [|a xs IH]; intros [|b ys]; simpl;
    try constructor; [|apply IH].
  destruct (f a b); split; discriminate.
Qed.

Lemma diff_short (xs : list Q) : length xs < 2 -> Np.diff xs = [].
Proof. destruct xs as [|x [|y xs]]; simpl; [reflexivity | reflexivity | lia]. Qed.

(** X6.  Accuracy, when it is a number, lies between 0 and 1, and the
    directional accuracy between 0 and 100; with fewer than two
    observations there is no pair of consecutive prices to compare and the
    directional accuracy is not a number. *)
Theorem indicator_metrics_bounds (actual predicted : list Q) :
  (forall acc, Policy.accuracy actual predicted = Some acc ->
               (0 <= acc <= 1)%Q) /\
  (forall da, directional_accuracy actual predicted = Some da ->
              (0 <= da <= 100)%Q) /\
  (length actual < 2 \/ length predicted < 2 ->
   directional_accuracy actual predicted = None).
Proof.
  split; [|split].
  - intros acc. unfold Policy.accuracy. rewrite zip_with_Some.
    apply mean_of_fractions, indicators_are_fractions.
  - intros da. unfold directional_accuracy.
    rewrite (zip_with_Some (fun da0 dp => Np.of_bool (eqb (Np.gt0 da0) (Np.gt0 dp)))).
    destruct (Np.mean _) as [m|] eqn:Em; [|discriminate].
    intros [= <-].
    apply mean_of_fractions in Em; [|apply indicators_are_fractions].
    destruct Em as [H0 H1]. split.
    + apply Qmult_le_0_compat; [exact H0 | discriminate].
    + apply Qle_trans with (y := (1 * 100)%Q); [|discriminate].
      apply Qmult_le_compat_r; [exact H1 | discriminate].
  - intros Hshort. unfold directional_accuracy.
    destruct Hshort as [H|H]; rewrite (diff_short _ H); [reflexivity|].
    now destruct (Np.diff actual).
Qed.

Lemma indicator_metrics_bounds_witness :
  (0 <= 200 # 2 <= 100)%Q /\ directional_accuracy [100%Q] [101%Q] = None.
Proof.
  destruct (indicator_metrics_bounds small_actual small_predicted)
    as (_ & Hda & _).
  destruct (indicator_metrics_bounds [100%Q] [101%Q]) as (_ & _ & Hshort).
  split; [apply (Hda (200 # 2)%Q); vm_compute; reflexivity|].
  apply Hshort. left. simpl. lia.
Defined.

Lemma sum_nonneg (l : list Q) :
  Forall (fun x => (0 <= x)%Q) l -> (0 <= Np.sum l)%Q.
Proof.
  induction 1 as [|x l Hx _ IH]; simpl; [discriminate|].
  rewrite <- (Qplus_0_l 0). now apply Qplus_le_compat.
Qed.

Lemma mean_nonneg (xs : list Np.npfloat) (m : Q) :
  Forall (fun o => forall q, o = Some q -> (0 <= q)%Q) xs ->
  Np.mean xs = Some m -> (0 <= m)%Q.
Proof.
  intros Hall. unfold Np.mean.
  destruct (mapM id xs) as [[|q qs]|] eqn:E; try discriminate.
  intros [= <-]. apply mapM_Some in E.
  assert (Hpos : Forall (fun x => (0 <= x)%Q) (q :: qs)).
  { clear -Hall E. induction E as [|o x xs l Hox _ IH]; [constructor|].
    inversion Hall; subst. constructor; auto. }
  apply Qle_shift_div_l; [apply of_nat_S_positive|].
  rewrite Qmult_0_l. exact (sum_nonneg (q :: qs) Hpos).
Qed.

Lemma mapM_id_with_None (l1 l2 : list Np.npfloat) :
  mapM id (l1 ++ None :: l2) = None.
Proof.
  induction l1 as [|[x|] l1 IH]; simpl; try reflexivity. now rewrite IH.
Qed.

(** X7.  MAPE, when it is a number, is not negative; it is 0 for a batch
    of non-negative prices predicted exactly; and the 1e-7 in the
    denominator does not guard an actual price of -1e-7: a batch holding
    one gives no number. *)
Theorem mape_properties :
  (forall actual predicted m, mape actual predicted = Some m -> (0 <= m)%Q) /\
  (forall actual,
      actual <> [] -> Forall (fun a => (0 <= a)%Q) actual ->
      exists m, mape actual actual = Some m /\ (m == 0)%Q) /\
  (forall a1 a2 p1 p2 x,
      length a1 = length p1 ->
      mape (a1 ++ (- eps_mape)%Q :: a2) (p1 ++ x :: p2) = None).
Proof.
  split; [|split].
  - intros actual predicted m. unfold mape.
    destruct (Np.mean _) as [m'|] eqn:Em; [|discriminate].
    intros [= <-]. apply mean_nonneg in Em.
    + apply Qmult_le_0_compat; [exact Em | discriminate].
    + clear. revert predicted.
      induction actual as [|a actual IH]; intros [|p predicted]; simpl;
        try constructor; [|apply IH].
      intros q. destruct (Np.div (a - p) (a + eps_mape)); [|discriminate].
      intros [= <-]. apply Qabs_nonneg.
  - intros actual Hne Hpos.
    assert (Hzip : zip_with (fun a p => Qabs <$> Np.div (a - p) (a + eps_mape))
                     actual actual
                   = map Some (map (fun a => Qabs ((a - a) / (a + eps_mape))) actual)).
    { clear Hne. induction Hpos as [|a actual Ha _ IH]; simpl; [reflexivity|].
      rewrite IH, div_by_positive; [reflexivity|].
      apply Qlt_le_trans with (y := eps_mape); [reflexivity|].
      rewrite <- (Qplus_0_l eps_mape) at 1. now apply Qplus_le_l. }
    unfold mape. rewrite Hzip.
    set (F := fun a => Qabs ((a - a) / (a + eps_mape))).
    destruct actual as [|a actual]; [done|].
    change (map Some (map F (a :: actual)))
      with (map Some (F a :: map F actual)).
    rewrite mean_of_finite. eexists. split; [reflexivity|].
    assert (Hsum : forall l : list Q, (Np.sum (map F l) == 0)%Q).
    { induction l as [|b l IH]; simpl; [reflexivity|].
      rewrite IH. unfold F.
      assert (E : ((b - b) / (b + eps_mape) == 0)%Q) by (unfold Qdiv; ring).
      rewrite E. reflexivity. }
    change (F a :: map F actual) with (map F (a :: actual)).
    rewrite Hsum. unfold Qdiv. ring.
  - intros a1 a2 p1 p2 x Hlen. unfold mape, Np.mean.
    rewrite zip_with_app by exact Hlen. cbn [zip_with].
    assert (E : Np.div (- eps_mape - x) (- eps_mape + eps_mape) = None)
      by reflexivity.
    rewrite E. cbn [fmap option_fmap option_map].
    now rewrite mapM_id_with_None.
Qed.

Lemma mape_properties_witness :
  (exists m, mape small_actual small_actual = Some m /\ (m == 0)%Q) /\
  mape ([100] ++ (- eps_mape) :: [102])%Q ([100] ++ 0 :: [101])%Q = None.
Proof.
  destruct mape_properties as (_ & Hexact & Hguard).
  split.
  - apply Hexact; [discriminate | repeat constructor; discriminate].
  - now apply Hguard.
Defined.

(** ** MetricEvaluator: recommendations *)

Lemma seen_app (u : Q) (l1 l2 : list Q) :
  Policy.seen u (l1 ++ l2) = Policy.seen u l1 + Policy.seen u l2.
Proof. unfold Policy.seen. now rewrite List.filter_app, length_app. Qed.

Lemma seen_cons_self (u : Q) (l : list Q) :
  Policy.seen u (u :: l) = S (Policy.seen u l).
Proof.
  unfold Policy.seen. simpl.
  assert (E : Qeq_bool u u = true) by (apply Qeq_bool_iff; reflexivity).
  now rewrite E.
Qed.

Lemma seen_middle (v u : Q) (l1 l2 : list Q) :
  Policy.seen v ((u :: l1) ++ l2) = Policy.seen v (l1 ++ u :: l2).
Proof.
  rewrite !seen_app. unfold Policy.seen. simpl.
  destruct (Qeq_bool u v); simpl; lia.
Qed.

(** When no user has more than [n] rows, taking the first [n] rows of
    every user takes every row. *)
Lemma head_per_user_all (n : nat) (users : list Q) :
  forall earlier values,
    length users = length values ->
    (forall u, Policy.seen u (earlier ++ users) <= n) ->
    Policy.head_per_user n earlier users values = values.
Proof.
  induction users as [|u users IH]; intros earlier [|v values] Hlen Hmax;
    try discriminate; [reflexivity|].
  simpl.
  assert (Hlt : Policy.seen u earlier < n).
  { specialize (Hmax u). rewrite seen_app, seen_cons_self in Hmax. lia. }
  apply Nat.ltb_lt in Hlt. rewrite Hlt. f_equal.
  apply IH; [now injection Hlen|].
  intros w. rewrite seen_middle. apply Hmax.
Qed.

(** X8.  The recommendation metrics of a frame without a 'clicked' column
    are empty; a frame with 'clicked' but without 'user_id' makes the
    grouping raise KeyError; and when no user has more than five rows,
    precision@5 and precision@10 are computed over all rows and so are the
    click-through rate. *)
Theorem recommendation_metrics_properties (data : DataFrame) :
  (df_col "clicked" data = None ->
   Policy._calculate_recommendation_metrics data = inr []) /\
  (forall clicked,
      df_col "clicked" data = Some clicked -> df_col "user_id" data = None ->
      Policy._calculate_recommendation_metrics data = inl (key_error "user_id")) /\
  (forall clicked users,
      df_col "clicked" data = Some clicked ->
      df_col "user_id" data = Some users ->
      length users = length clicked ->
      (forall u, Policy.seen u users <= 5) ->
      exists m ctr,
        Policy._calculate_recommendation_metrics data = inr m /\
        assoc "ctr" m = Some ctr /\
        assoc "precision_at_5" m = Some ctr /\
        assoc "precision_at_10" m = Some ctr).
Proof.
  unfold Policy._calculate_recommendation_metrics.
  split; [now intros ->|]. split; [now intros clicked -> ->|].
  intros clicked users -> -> Hlen Hmax.
  rewrite (head_per_user_all 5 users [] clicked Hlen Hmax).
  rewrite (head_per_user_all 10 users [] clicked Hlen)
    by (intros u; specialize (Hmax u); simpl; lia).
  eexists. eexists. split; [reflexivity|]. repeat split.
Qed.

Lemma recommendation_metrics_properties_witness :
  Policy._calculate_recommendation_metrics (mkDF 2 [("clicked", [1; 0]%Q)])
    = inl (key_error "user_id") /\
  exists m ctr,
    Policy._calculate_recommendation_metrics
      (mkDF 3 [("user_id", [7; 8; 7]%Q); ("clicked", [1; 0; 0]%Q)]) = inr m /\
    assoc "ctr" m = Some ctr /\
    assoc "precision_at_5" m = Some ctr /\
    assoc "precision_at_10" m = Some ctr.
Proof.
  split.
  - apply (proj1 (proj2 (recommendation_metrics_properties
                           (mkDF 2 [("clicked", [1; 0]%Q)]))) [1; 0]%Q);
      reflexivity.
  - apply (proj2 (proj2 (recommendation_metrics_properties
                           (mkDF 3 [("user_id", [7; 8; 7]%Q);
                                    ("clicked", [1; 0; 0]%Q)])))
             [1; 0; 0]%Q [7; 8; 7]%Q); try reflexivity.
    intros u. unfold Policy.seen. simpl.
    destruct (Qeq_bool 7 u), (Qeq_bool 8 u); simpl; lia.
Defined.

(** Where a user has more rows than five, precision@5 leaves the later
    ones out. *)
Example head_per_user_truncates :
  Policy.head_per_user 2 [] [7; 8; 7; 7; 8]%Q [1; 0; 0; 1; 1]%Q = [1; 0; 0; 1]%Q.
Proof. reflexivity. Qed.

(** ** DriftDetector: the sign of the index *)






















(** ** DriftDetector: the binning *)

Lemma search_sorted_snoc (a init : list Q) (e_last : Q) :
  Np.search_sorted_inclusive a (init ++ [e_last])
    = map (Np.count_lt a) init ++ [Np.count_le a e_last].
Proof.
  unfold Np.search_sorted_inclusive.
  now rewrite reverse_snoc, reverse_involutive.
Qed.

Lemma last_default (l : list nat) (x d1 d2 : nat) :
  List.last (x :: l) d1 = List.last (x :: l) d2.
Proof.
  revert x. induction l as [|y l IH]; intros x; [reflexivity|].
  change (List.last (y :: l) d1 = List.last (y :: l) d2). apply IH.
Qed.

(** The counts of the bins add up to the last cumulative count minus the
    first. *)
Lemma diff_counts_telescope (first : nat) (rest : list nat) :
  foldr Z.add 0%Z (Np.diff_counts (first :: rest))
    = (Z.of_nat (List.last rest first) - Z.of_nat first)%Z.
Proof.
  unfold Np.diff_counts. revert first.
  induction rest as [|y rest IH]; intros first; [simpl; lia|].
  specialize (IH y).
  change (foldr Z.add 0%Z (zip_with (fun x y0 => (Z.of_nat y0 - Z.of_nat x)%Z)
                             (first :: y :: rest) (tail (first :: y :: rest))))
    with ((Z.of_nat y - Z.of_nat first)
          + foldr Z.add 0%Z (zip_with (fun x y0 => (Z.of_nat y0 - Z.of_nat x)%Z)
                               (y :: rest) (tail (y :: rest))))%Z.
  rewrite IH.
  destruct rest as [|z rest]; [simpl; lia|].
  change (List.last (y :: z :: rest) first) with (List.last (z :: rest) first).
  rewrite (last_default rest z first y). lia.
Qed.

Lemma count_lt_none (a : list Q) (e lo : Q) :
  (e <= lo)%Q -> Forall (fun x => (lo <= x)%Q) a -> Np.count_lt a e = 0.
Proof.
  intros He Hall. unfold Np.count_lt.
  induction Hall as [|x a Hx _ IH]; simpl; [reflexivity|].
  destruct (Qlt_le_dec x e) as [Hlt|]; [|exact IH].
  exfalso. apply (Qlt_irrefl x).
  apply Qlt_le_trans with (y := e); [exact Hlt|].
  now apply Qle_trans with (y := lo).
Qed.

Lemma count_le_all (a : list Q) (e hi : Q) :
  (hi <= e)%Q -> Forall (fun x => (x <= hi)%Q) a -> Np.count_le a e = length a.
Proof.
  intros He Hall. unfold Np.count_le.
  induction Hall as [|x a Hx _ IH]; simpl; [reflexivity|].
  destruct (Qlt_le_dec e x) as [Hlt|]; [|simpl; now rewrite IH].
  exfalso. apply (Qlt_irrefl x).
  apply Qle_lt_trans with (y := e); [|exact Hlt].
  now apply Qle_trans with (y := hi).
Qed.

Lemma linspace_snoc (lo hi : Q) (bins : nat) :
  Np.linspace lo hi (S bins)
    = map (fun i => (lo + Np.of_nat i * ((hi - lo) / Np.of_nat bins))%Q) (seq 0 bins)
      ++ [(lo + Np.of_nat bins * ((hi - lo) / Np.of_nat bins))%Q].
Proof. unfold Np.linspace. simpl Nat.pred. now rewrite seq_S, map_app. Qed.

(** X10.  Binning loses no sample: over the edges [linspace lo hi (bins+1)]
    with at least one bin, the counts of the bins of an array whose values
    all lie between [lo] and [hi] add up to the length of the array (the
    last bin includes its right edge). *)
Theorem histogram_counts_every_sample (a : list Q) (lo hi : Q) (bins : nat) :
  1 <= bins ->
  Forall (fun x => (lo <= x)%Q) a ->
  Forall (fun x => (x <= hi)%Q) a ->
  foldr Z.add 0%Z
    (Np.diff_counts (Np.search_sorted_inclusive a (Np.linspace lo hi (bins + 1))))
    = Z.of_nat (length a).
Proof.
  intros Hbins Hlo Hhi.
  rewrite Nat.add_1_r, linspace_snoc, search_sorted_snoc.
  destruct bins as [|bins]; [lia|].
  set (step := ((hi - lo) / Np.of_nat (S bins))%Q).
  change (seq 0 (S bins)) with (0 :: seq 1 bins).
  rewrite !map_cons. rewrite <- app_comm_cons.
  rewrite diff_counts_telescope.
  rewrite List.last_last.
  rewrite (count_lt_none a _ lo); [| |exact Hlo].
  - rewrite (count_le_all a _ hi); [lia| |exact Hhi].
    assert (E : (lo + Np.of_nat (S bins) * step == hi)%Q).
    { unfold step. field. intros H0.
      pose proof (of_nat_S_positive bins) as Hpos. rewrite H0 in Hpos.
      now apply Qlt_irrefl in Hpos. }
    rewrite E. apply Qle_refl.
  - assert (E : (lo + Np.of_nat 0 * step == lo)%Q)
      by (unfold Np.of_nat; simpl; ring).
    rewrite E. apply Qle_refl.
Qed.

Lemma histogram_counts_every_sample_witness :
  foldr Z.add 0%Z
    (Np.diff_counts
       (Np.search_sorted_inclusive [1; 2; 3; 9]%Q (Np.linspace 1 9 (10 + 1))))
    = 4%Z.
Proof.
  apply (histogram_counts_every_sample [1; 2; 3; 9]%Q 1 9 10);
    [lia | repeat constructor; discriminate | repeat constructor; discriminate].
Defined.

(** ** DriftDetector: the check *)

Lemma drift_loop_without_threshold (env : Env) (model_name : string)
    (current_stats : DataFrame) (e : PyExc) :
  lookup_threshold model_name "drift_threshold" = inl e ->
  forall baseline_columns found,
    fst (drift_loop env model_name current_stats baseline_columns found) = found.
Proof.
  intros Hno. induction baseline_columns as [|[feature values] rest IH];
    intros found; simpl; [reflexivity|].
  destruct (df_col feature current_stats); [|apply IH].
  now rewrite Hno.
Qed.

Lemma drift_loop_price (env : Env) (current_stats : DataFrame) :
  forall baseline_columns found,
    drift_loop env "price_prediction" current_stats baseline_columns found
      = (found ++ drifted_features env current_stats baseline_columns, None).
Proof.
  induction baseline_columns as [|[feature values] rest IH]; intros found.
  - simpl. now rewrite app_nil_r.
  - unfold drifted_features.
    cbn [drift_loop omap list_omap fst snd].
    destruct (df_col feature current_stats) as [current_values|]; [|apply IH].
    change (lookup_threshold "price_prediction" "drift_threshold")
      with (inr (1 # 10)%Q : PyExc + Q).
    cbv beta iota zeta.
    destruct (Qlt_le_dec (1 # 10) _); [|apply IH].
    rewrite IH, <- app_assoc. reflexivity.
Qed.

(** X11.  A drift check never raises, leaves the retraining queue alone
    and calls no pipeline; and for the two models whose thresholds have no
    'drift_threshold' (disease detection and recommendations) it reports
    no drift issue, whatever the baseline and the current features are. *)
Theorem drift_check_never_raises (env : Env) (model_name : string) (w : World) :
  exists found,
    fst (_check_feature_drift env model_name w) = inr found /\
    retraining_queue (snd (_check_feature_drift env model_name w))
      = retraining_queue w /\
    pipeline_calls (trace (snd (_check_feature_drift env model_name w)))
      = pipeline_calls (trace w) /\
    (model_name = "disease_detection" \/ model_name = "recommendations" ->
     found = []).
Proof.
  destruct (truthy (redis_kv w !! baseline_key model_name)) as [b|] eqn:Hb.
  - destruct (check_drift_existing env model_name w b Hb)
      as (found & new & Heq & Hnew).
    exists found. rewrite Heq. simpl.
    split; [reflexivity|]. split; [reflexivity|].
    split; [now apply pipeline_calls_text|].
    intros Hmodel.
    assert (Hno : exists e, lookup_threshold model_name "drift_threshold" = inl e)
      by (destruct Hmodel as [-> | ->]; eexists; reflexivity).
    destruct Hno as [e Hno].
    revert Heq. unfold _check_feature_drift, bind, redis_get. rewrite Hb.
    destruct (read_json env b) as [e'|baseline_stats].
    { unfold log, emit, ret. simpl. now intros [= <- _]. }
    match goal with
    | |- context [_calculate_current_feature_stats env model_name ?w0] =>
        destruct (_calculate_current_feature_stats env model_name w0)
          as [[e'|current_stats] w1]
    end; [discriminate|].
    pose proof (drift_loop_without_threshold env model_name current_stats e Hno
                  (df_columns baseline_stats) []) as Hloop.
    destruct (drift_loop env model_name current_stats (df_columns baseline_stats) [])
      as [found' [e'|]]; simpl in Hloop; subst found';
      unfold log, emit, ret; simpl; now intros [= <- _].
  - rewrite (check_drift_cold env model_name w Hb), store_baseline_spec.
    exists []. split; [reflexivity|].
    destruct (fetch_features env model_name 30) as [e|df]; simpl;
      [repeat split; reflexivity|].
    destruct (df_empty df); simpl; repeat split; reflexivity.
Qed.

Lemma drift_check_never_raises_witness :
  fst (_check_feature_drift features_lab "recommendations" world0) = inr [].
Proof.
  destruct (drift_check_never_raises features_lab "recommendations" world0)
    as (found & Hfst & _ & _ & Hnone).
  rewrite Hfst. f_equal. apply Hnone. now right.
Defined.

(** X12.  For the price model, a drift check against a stored baseline
    that parses reports exactly the baseline features that the current
    statistics also have and whose index exceeds 0.1, in the order of the
    baseline's columns. *)
Theorem price_drift_issues (env : Env) (w : World) (baseline : string)
    (baseline_stats : DataFrame) :
  truthy (redis_kv w !! baseline_key "price_prediction") = Some baseline ->
  read_json env baseline = inr baseline_stats ->
  fst (_check_feature_drift env "price_prediction" w)
    = inr (drifted_features env
             (match fetch_features env "price_prediction" 7 with
              | inr df => if df_empty df then mkDF 0 [] else describe env df
              | inl _ => mkDF 0 []
              end)
             (df_columns baseline_stats)).
Proof.
  intros Hb Hjson. unfold _check_feature_drift, bind, redis_get.
  rewrite Hb, Hjson.
  unfold _calculate_current_feature_stats, try_except, bind, lift, ret, raise,
    log, emit.
  destruct (fetch_features env "price_prediction" 7) as [e|df];
    cbv beta iota zeta; now rewrite drift_loop_price.
Qed.

Lemma price_drift_issues_witness :
  fst (_check_feature_drift drift_lab "price_prediction" baselined_world)
    = inr ["Feature drift in rainfall: PSI = 0.000"%string].
Proof.
  rewrite (price_drift_issues drift_lab baselined_world "{}" baseline_frame);
    [| vm_compute; reflexivity | reflexivity].
  vm_compute. reflexivity.
Defined.

(** ** AlertNotifier and the trigger *)

(** X13.  Sending an alert never raises and touches neither the queue nor
    the key-value store; the message is handed to the SMTP server exactly
    when a sender address is configured and the SMTP dialogue does not
    fail, and otherwise only a log record is written. *)
Theorem alert_email_is_best_effort (env : Env) (subject message : Text)
    (w : World) :
  exists new,
    _send_alert_email env subject message w =
      (inr tt, mkWorld (redis_kv w) (retraining_queue w) (new ++ trace w)
                 (pipeline_runs w) (now w)) /\
    (In (EvEmail subject message) new <->
     (exists address, truthy (sender_email env) = Some address) /\
     smtp_error env = None) /\
    (~ In (EvEmail subject message) new -> exists lvl msg, new = [EvLog lvl msg]).
Proof.
  exists (email_events env subject message).
  split; [apply send_alert_email_eq|].
  unfold email_events.
  destruct (truthy (sender_email env)) as [address|].
  - destruct (smtp_error env) as [e|].
    + split; [|eauto]. split.
      * intros [H|[]]. discriminate.
      * intros [_ H]. discriminate.
    + split.
      * split; [eauto|]. intros _. right. now left.
      * intros Hnot. exfalso. apply Hnot. right. now left.
  - split; [|eauto]. split.
    + intros [H|[]]. discriminate.
    + intros [[address H] _]. discriminate.
Qed.

(** X14.  Triggering a retraining never raises and never calls the
    pipeline or writes a baseline.  For a result without an 'issues' entry
    (the result of a model whose evaluation raised) it queues nothing and
    sends nothing: the KeyError is logged. *)
Theorem trigger_without_issues (env : Env) (model_name : string)
    (r : MonitoringResult) (w : World) :
  fst (_trigger_retraining env model_name r w) = inr tt /\
  pipeline_runs (snd (_trigger_retraining env model_name r w)) = pipeline_runs w /\
  redis_kv (snd (_trigger_retraining env model_name r w)) = redis_kv w /\
  (issues r = None ->
   retraining_queue (snd (_trigger_retraining env model_name r w))
     = retraining_queue w /\
   trace (snd (_trigger_retraining env model_name r w))
     = [EvLog ERROR (mkText "Failed to trigger retraining for {}: {}"
                       [VStr model_name; VStr "issues"]);
        EvLog INFO (mkText "Triggering retraining for {}" [VStr model_name])]
       ++ trace w).
Proof.
  split; [apply trigger_never_raises|]. split; [|split; [apply trigger_kv|]].
  - destruct (issues r) as [found|] eqn:Hissues.
    + now destruct (trigger_retraining_spec env model_name r found w Hissues)
        as (t' & -> & _).
    + unfold _trigger_retraining, try_except, bind, log, emit, raise.
      now rewrite Hissues.
  - intros Hissues.
    unfold _trigger_retraining, try_except, bind, log, emit, raise.
    now rewrite Hissues.
Qed.

Lemma trigger_without_issues_witness :
  retraining_queue
    (snd (_trigger_retraining failing_lab "price_prediction"
            (error_result (mkExc "OperationalError" "connection refused"))
            world0)) = [].
Proof.
  destruct (trigger_without_issues failing_lab "price_prediction"
              (error_result (mkExc "OperationalError" "connection refused"))
              world0) as (_ & _ & _ & Hnone).
  destruct (Hnone eq_refl) as [Hq _]. exact Hq.
Defined.

(** ** RetrainingQueue *)

Lemma push_all_queue (payloads : list string) :
  forall w,
    retraining_queue (push_all payloads w)
      = reverse payloads ++ retraining_queue w.
Proof.
  induction payloads as [|x payloads IH]; intros w; [reflexivity|].
  simpl. rewrite IH. simpl. now rewrite reverse_cons, <- app_assoc.
Qed.

(** X15.  The queue is first in, first out: after payloads are pushed one
    by one with LPUSH, successive RPOPs return first what was queued
    before, oldest first, and then the pushed payloads in the order in
    which they were pushed. *)
Theorem queue_is_fifo (payloads : list string) (w : World) :
  rpop_all (length (retraining_queue w) + length payloads) (push_all payloads w)
    = reverse (retraining_queue w) ++ payloads.
Proof.
  pose proof (push_all_queue payloads w) as Hq.
  rewrite (Nat.add_comm (length (retraining_queue w))).
  replace (length payloads + length (retraining_queue w))
    with (length (retraining_queue (push_all payloads w)))
    by (rewrite Hq, length_app, length_reverse; reflexivity).
  rewrite (rpop_all_order _ _ eq_refl), Hq, reverse_app, reverse_involutive.
  reflexivity.
Qed.

(** X16.  An empty payload reads as an empty queue: when the payload at
    the right end of the queue is the empty string, the drain takes it
    out and ends, without error and without a training run, leaving the
    other payloads in the queue. *)
Theorem empty_payload_ends_the_drain (env : Env) (w : World) (q : list string)
    (fuel : nat) :
  retraining_queue w = q ++ [""] ->
  _process_retraining_queue env (S fuel) w = Some (with_queue q w).
Proof.
  intros Hq. unfold _process_retraining_queue. rewrite while_true_S.
  unfold process_next_job, bind. now rewrite (rpop_snoc _ _ _ Hq).
Qed.

Lemma empty_payload_ends_the_drain_witness :
  _process_retraining_queue failing_lab 1
    (with_queue [py_repr price_job; ""] world0)
    = Some (with_queue [py_repr price_job] world0).
Proof.
  apply (empty_payload_ends_the_drain failing_lab
           (with_queue [py_repr price_job; ""] world0) [py_repr price_job] 0).
  reflexivity.
Defined.

(** ** MonitoringScheduler: the evaluation phase *)

Lemma check_drift_frame (env : Env) (model_name : string) (w : World) :
  retraining_queue (snd (_check_feature_drift env model_name w))
    = retraining_queue w /\
  pipeline_runs (snd (_check_feature_drift env model_name w)) = pipeline_runs w.
Proof.
  destruct (truthy (redis_kv w !! baseline_key model_name)) as [b|] eqn:Hb.
  - now destruct (check_drift_existing env model_name w b Hb)
      as (found & new & -> & _).
  - rewrite (check_drift_cold env model_name w Hb), store_baseline_spec.
    destruct (fetch_features env model_name 30) as [e|df]; simpl; [done|].
    now destruct (df_empty df).
Qed.

(** What the evaluation of one model leaves behind and returns. *)
Lemma monitor_single_frame (env : Env) (model_name : string) (w : World) :
  retraining_queue (snd (_monitor_single_model env model_name w))
    = retraining_queue w /\
  pipeline_runs (snd (_monitor_single_model env model_name w)) = pipeline_runs w /\
  (forall r, fst (_monitor_single_model env model_name w) = inr r ->
     (status r = "insufficient_data" \/ status r = "completed") /\
     error r = None /\
     exists found, issues r = Some found /\
                   needs_retraining r = negb (Nat.eqb (length found) 0)).
Proof.
  unfold _monitor_single_model, _get_recent_predictions, bind, log, emit, lift,
    ret, raise.
  cbv beta iota zeta.
  destruct (fetch_predictions env model_name) as [e|data];
    [split; [reflexivity|]; split; [reflexivity|]; discriminate|].
  destruct (lookup_threshold model_name "min_samples") as [e|min_samples];
    [split; [reflexivity|]; split; [reflexivity|]; discriminate|].
  destruct (Qlt_le_dec (Np.of_nat (df_len data)) min_samples) as [Hfew|Henough].
  { split; [reflexivity|]. split; [reflexivity|].
    intros res [= <-]. split; [now left|]. split; [reflexivity|].
    now exists []. }
  match goal with
  | |- context [model_specific env model_name data ?w0] =>
      pose proof (model_specific_world env model_name data w0) as Hw;
      destruct (model_specific env model_name data w0) as [[e|specific] w1]
  end; simpl in Hw; subst w1; [split; [reflexivity|]; split; [reflexivity|]; discriminate|].
  match goal with
  | |- context [_check_feature_drift env model_name ?w0] =>
      pose proof (check_drift_frame env model_name w0) as [Hq Hruns];
      destruct (_check_feature_drift env model_name w0) as [[e|found] w1]
  end; simpl in Hq, Hruns; cbn [fst snd];
    (split; [exact Hq|]); (split; [exact Hruns|]); [discriminate|].
  intros res [= <-]. split; [now right|]. split; [reflexivity|].
  eexists. split; reflexivity.
Qed.

(** One pass of the loop over the models: the entry it stores, and the
    queue, which grows by one payload exactly when that entry asks for
    retraining. *)
Lemma monitor_one_queue (env : Env) (model_name : string)
    (results : gmap string MonitoringResult) (w : World) :
  exists r,
    fst (monitor_one env model_name results w) = inr (<[model_name := r]> results) /\
    length (retraining_queue (snd (monitor_one env model_name results w)))
      = length (retraining_queue w) + (if needs_retraining r then 1 else 0) /\
    pipeline_runs (snd (monitor_one env model_name results w)) = pipeline_runs w.
Proof.
  unfold monitor_one, try_except, bind.
  destruct (monitor_single_frame env model_name w) as (Hq & Hruns & Hres).
  destruct (_monitor_single_model env model_name w) as [[e|r] w1];
    simpl in Hq, Hruns, Hres.
  - exists (error_result e). unfold log, emit. simpl. rewrite Hq, Hruns.
    repeat split; lia.
  - exists r. destruct (Hres r eq_refl) as (_ & _ & found & Hfound & Hneeds).
    destruct (needs_retraining r).
    + unfold log, emit. cbv beta iota zeta.
      match goal with
      | |- context [_trigger_retraining env model_name r ?w0] =>
          destruct (trigger_retraining_spec env model_name r found w0 Hfound)
            as (t' & -> & _)
      end.
      simpl. rewrite Hq, Hruns. repeat split; lia.
    + simpl. rewrite Hq, Hruns. repeat split; lia.
Qed.

Lemma monitor_each_queue (env : Env) (names : list string) :
  NoDup names ->
  forall results w,
    exists results',
      fst (monitor_each env names results w) = inr results' /\
      dom results' = dom results ∪ list_to_set names /\
      (forall name, name ∉ names -> results' !! name = results !! name) /\
      length (retraining_queue (snd (monitor_each env names results w)))
        = length (retraining_queue w)
          + length (List.filter (asks_retraining results') names) /\
      pipeline_runs (snd (monitor_each env names results w)) = pipeline_runs w.
Proof.
  induction 1 as [|name names Hnotin Hnodup IH]; intros results w.
  - exists results. simpl. repeat split; [set_solver | lia].
  - simpl. unfold bind.
    destruct (monitor_one_queue env name results w) as (r & Hfst & Hlen & Hruns).
    destruct (monitor_one env name results w) as [res1 w1].
    simpl in Hfst, Hlen, Hruns. subst res1.
    destruct (IH (<[name := r]> results) w1)
      as (results' & Hrest & Hdom & Hout & Hlen' & Hruns').
    exists results'. split; [exact Hrest|]. split; [|split; [|split]].
    + rewrite Hdom, dom_insert_L. set_solver.
    + intros name' Hnotin'. apply not_elem_of_cons in Hnotin' as [Hne Hnotin'].
      rewrite (Hout name' Hnotin'). now apply lookup_insert_ne.
    + rewrite Hlen', Hlen.
      assert (Hname : asks_retraining results' name = needs_retraining r).
      { unfold asks_retraining. now rewrite (Hout name Hnotin), lookup_insert_eq. }
      rewrite Hname. destruct (needs_retraining r); simpl; lia.
    + now rewrite Hruns'.
Qed.

Lemma monitor_models_queue (env : Env) (w : World) :
  exists results,
    fst (monitor_models env w) = inr results /\
    dom results = list_to_set monitored_models /\
    length (retraining_queue (snd (monitor_models env w)))
      = length (retraining_queue w)
        + length (List.filter (asks_retraining results) monitored_models) /\
    pipeline_runs (snd (monitor_models env w)) = pipeline_runs w.
Proof.
  unfold monitor_models, bind, log, emit. cbv beta iota zeta.
  match goal with
  | |- context [monitor_each env monitored_models ∅ ?w0] =>
      destruct (monitor_each_queue env monitored_models) with
        (results := (∅ : gmap string MonitoringResult)) (w := w0)
        as (results & Hfst & Hdom & _ & Hlen & Hruns)
  end.
  { unfold monitored_models.
    repeat (apply NoDup_cons; split;
            [rewrite ?elem_of_cons, elem_of_nil; intuition discriminate|]).
    apply NoDup_nil_2. }
  exists results.
  match type of Hfst with
  | fst ?c = _ => destruct c as [res w1]
  end.
  simpl in Hfst, Hlen, Hruns. subst res.
  unfold _store_monitoring_results, try_except, bind, log, emit, raise.
  destruct (db_insert_error env); simpl;
    (split; [reflexivity|]); (split; [rewrite Hdom; set_solver|]);
    split; assumption.
Qed.

(** ** MonitoringScheduler: the drain in order *)

Lemma process_next_job_eq (env : Env) (w : World) (q : list string)
    (p : string) (m : pyval) :
  retraining_queue w = q ++ [p] ->
  decodes env p m ->
  process_next_job env w =
    (inr true,
     mkWorld (redis_kv w)
       (if run_succeeds (run_pipeline env (pipeline_runs w)) then q else p :: q)
       (EvLog (if run_succeeds (run_pipeline env (pipeline_runs w))
               then INFO else ERROR)
          (mkText (if run_succeeds (run_pipeline env (pipeline_runs w))
                   then "Retraining completed for {}"
                   else "Retraining failed for {}") [m])
        :: run_events env m (run_pipeline env (pipeline_runs w))
        ++ EvRunPipeline
        :: EvLog INFO (mkText "Starting retraining for {}" [m])
        :: EvLog INFO (mkText "Processing retraining job for {}" [m])
        :: trace w)
       (S (pipeline_runs w)) (now w)).
Proof.
  intros Hq [Hp Heval]. unfold process_next_job, bind.
  rewrite (rpop_snoc _ _ _ Hq), (truthy_nonempty _ Hp).
  destruct (Heval (with_queue q w)) as (items & -> & Hm).
  unfold py_getitem, getitem. rewrite Hm.
  unfold ret, log, emit, with_queue.
  cbn [redis_kv retraining_queue trace pipeline_runs now].
  rewrite run_retraining_eq.
  cbn [redis_kv retraining_queue trace pipeline_runs now].
  now destruct (run_succeeds (run_pipeline env (pipeline_runs w))).
Qed.

Lemma processing_log_email (env : Env) (subject message : Text) (t : list Event) :
  String.eqb ("Alert email sent: " ++ template subject)
    "Processing retraining job for {}" = false ->
  processing_log (email_events env subject message ++ t) = processing_log t.
Proof.
  intros Hne. unfold email_events.
  destruct (truthy (sender_email env)); [|reflexivity].
  destruct (smtp_error env); [reflexivity|].
  cbn [app processing_log]. rewrite Hne.
  destruct (args subject) as [|? [|? ?]]; reflexivity.
Qed.

Lemma processing_log_run (env : Env) (m : pyval) (o : PipelineOutcome)
    (t : list Event) :
  processing_log (run_events env m o ++ t) = processing_log t.
Proof.
  unfold run_events. destruct o as [result|e]; [|reflexivity].
  destruct (assoc "status" result) as [v|]; [|reflexivity].
  destruct (pyval_is_str v "success"); now apply processing_log_email.
Qed.

(** X18.  When every training run succeeds, the drain processes the
    queued jobs in the order in which they were queued, each exactly once:
    it ends with the queue empty after one run per job, and its
    'Processing retraining job' log records name the jobs' models in queue
    order. *)
Theorem successful_drain_is_in_order (env : Env) (names : list pyval) :
  forall w,
    Forall2 (decodes env) (reverse (retraining_queue w)) names ->
    (forall i, pipeline_runs w <= i -> run_succeeds (run_pipeline env i) = true) ->
    exists w',
      _process_retraining_queue env (S (length names)) w = Some w' /\
      retraining_queue w' = [] /\
      pipeline_runs w' = pipeline_runs w + length names /\
      processing_log (trace w') = processing_log (trace w) ++ names.
Proof.
  unfold _process_retraining_queue.
  induction names as [|m names IH]; intros w Hdec Hok.
  - apply Forall2_nil_inv_r in Hdec.
    assert (Hq : retraining_queue w = [])
      by (rewrite <- (reverse_involutive (retraining_queue w)), Hdec; reflexivity).
    exists w. rewrite while_true_S, (process_next_job_empty _ _ Hq).
    rewrite app_nil_r. simpl. repeat split; try done; lia.
  - apply Forall2_cons_inv_r in Hdec as (p & ps & Hm & Hrest & Hrev).
    assert (Hq : retraining_queue w = reverse ps ++ [p]).
    { rewrite <- (reverse_involutive (retraining_queue w)), Hrev.
      apply reverse_cons. }
    rewrite while_true_S, (process_next_job_eq env w _ p m Hq Hm).
    rewrite (Hok (pipeline_runs w)) by lia.
    match goal with
    | |- context [while_true _ _ ?w0] => destruct (IH w0) as (w' & Hloop & Hempty & Hruns & Hlog)
    end.
    { simpl. now rewrite reverse_involutive. }
    { simpl. intros i Hi. apply Hok. lia. }
    exists w'.
    split; [exact Hloop|]. split; [exact Hempty|]. split.
    + rewrite Hruns. simpl. lia.
    + rewrite Hlog. cbn [trace processing_log String.eqb Ascii.eqb Bool.eqb].
      rewrite processing_log_run.
      cbn [processing_log String.eqb Ascii.eqb Bool.eqb].
      rewrite <- app_assoc. reflexivity.
Qed.

Lemma successful_drain_is_in_order_witness :
  exists w',
    _process_retraining_queue two_jobs_ok_lab 3 two_jobs_world = Some w' /\
    retraining_queue w' = [] /\
    pipeline_runs w' = 2 /\
    processing_log (trace w')
      = [VStr "price_prediction"; VStr "disease_detection"].
Proof.
  apply (successful_drain_is_in_order two_jobs_ok_lab
           [VStr "price_prediction"; VStr "disease_detection"] two_jobs_world).
  - change (reverse (retraining_queue two_jobs_world))
      with [py_repr price_job; py_repr disease_job].
    repeat constructor; try discriminate; intros w; eexists; split; reflexivity.
  - intros i _. reflexivity.
Defined.

(** X17.  A monitoring pass always returns, with an entry for each of the
    three models and no other; it calls no pipeline; and it adds to the
    retraining queue exactly one payload for every model whose entry asks
    for retraining. *)
Theorem monitoring_queues_one_job_per_flagged_model (env : Env) (w : World) :
  exists results,
    fst (monitor_models env w) = inr results /\
    dom results = list_to_set monitored_models /\
    length (retraining_queue (snd (monitor_models env w)))
      = length (retraining_queue w)
        + length (List.filter (asks_retraining results) monitored_models) /\
    pipeline_runs (snd (monitor_models env w)) = pipeline_runs w.
Proof. apply monitor_models_queue. Qed.

(** X19.  Whatever the evaluation of one model does, it leaves the
    retraining queue alone and calls no pipeline.  A result it returns has
    status 'insufficient_data' or 'completed', carries no error and always
    has an 'issues' list, and its [needs_retraining] is true exactly when
    that list is not empty. *)
Theorem evaluation_result_invariant (env : Env) (model_name : string) (w : World) :
  retraining_queue (snd (_monitor_single_model env model_name w))
    = retraining_queue w /\
  pipeline_runs (snd (_monitor_single_model env model_name w)) = pipeline_runs w /\
  (forall r, fst (_monitor_single_model env model_name w) = inr r ->
     (status r = "insufficient_data" \/ status r = "completed") /\
     error r = None /\
     exists found, issues r = Some found /\
                   (needs_retraining r = true <-> found <> [])).
Proof.
  destruct (monitor_single_frame env model_name w) as (Hq & Hruns & Hres).
  split; [exact Hq|]. split; [exact Hruns|].
  intros r Hr. destruct (Hres r Hr) as (Hstatus & Herr & found & Hfound & Hneeds).
  split; [exact Hstatus|]. split; [exact Herr|].
  exists found. split; [exact Hfound|]. rewrite Hneeds.
  destruct found; simpl; split; try done.
Qed.

Lemma evaluation_result_invariant_witness :
  exists found,
    issues (insufficient_data 50) = Some found /\
    (needs_retraining (insufficient_data 50) = true <-> found <> []).
Proof.
  destruct (evaluation_result_invariant sparse_lab "disease_detection" world0)
    as (_ & _ & Hres).
  destruct (Hres (insufficient_data 50) eq_refl) as (_ & _ & Hfound).
  exact Hfound.
Defined.

(** ** MLPipeline.run_pipeline *)

(** X20.  [run_pipeline] always returns a dictionary with a 'status' entry,
    'success' or 'error', so that reading it cannot fail; and the status
    is 'success', which is what makes [_run_retraining] report success,
    exactly when all five stages returned, each run on the state the one
    before it left. *)
Theorem run_pipeline_status (State : Type)
    (collect_data : MLPipeline.Stage State (list (string * DataFrame)))
    (preprocess_data : list (string * DataFrame) ->
                       MLPipeline.Stage State (list (string * DataFrame)))
    (train_models evaluate_models : list (string * DataFrame) ->
                                    MLPipeline.Stage State pyval)
    (save_models : MLPipeline.Stage State unit) (timestamp : string) (s : State) :
  let result := fst (MLPipeline.run_pipeline State collect_data preprocess_data
                       train_models evaluate_models save_models timestamp s) in
  (assoc "status" result = Some (VStr "success") \/
   assoc "status" result = Some (VStr "error")) /\
  (run_succeeds (PipelineReturns result) = true <->
   exists raw_data s1 processed_data s2 training_results s3
          evaluation_results s4 s5,
     collect_data s = (inr raw_data, s1) /\
     preprocess_data raw_data s1 = (inr processed_data, s2) /\
     train_models processed_data s2 = (inr training_results, s3) /\
     evaluate_models processed_data s3 = (inr evaluation_results, s4) /\
     save_models s4 = (inr tt, s5) /\
     snd (MLPipeline.run_pipeline State collect_data preprocess_data
            train_models evaluate_models save_models timestamp s) = s5).
Proof.
  unfold MLPipeline.run_pipeline.
  destruct (collect_data s) as [[e|raw_data] s1] eqn:E1.
  { split; [now right|]. split; [discriminate|].
    intros (? & ? & ? & ? & ? & ? & ? & ? & ? & H & _). discriminate. }
  destruct (preprocess_data raw_data s1) as [[e|processed_data] s2] eqn:E2.
  { split; [now right|]. split; [discriminate|].
    intros (? & ? & ? & ? & ? & ? & ? & ? & ? & [= <- <-] & H & _).
    rewrite E2 in H. discriminate. }
  destruct (train_models processed_data s2) as [[e|training_results] s3] eqn:E3.
  { split; [now right|]. split; [discriminate|].
    intros (? & ? & ? & ? & ? & ? & ? & ? & ? & [= <- <-] & H2 & H & _).
    rewrite E2 in H2. injection H2 as <- <-. rewrite E3 in H. discriminate. }
  destruct (evaluate_models processed_data s3) as [[e|evaluation_results] s4] eqn:E4.
  { split; [now right|]. split; [discriminate|].
    intros (? & ? & ? & ? & ? & ? & ? & ? & ? & [= <- <-] & H2 & H3 & H & _).
    rewrite E2 in H2. injection H2 as <- <-.
    rewrite E3 in H3. injection H3 as <- <-. rewrite E4 in H. discriminate. }
  destruct (save_models s4) as [[e|[]] s5] eqn:E5.
  { split; [now right|]. split; [discriminate|].
    intros (? & ? & ? & ? & ? & ? & ? & ? & ? & [= <- <-] & H2 & H3 & H4 & H & _).
    rewrite E2 in H2. injection H2 as <- <-.
    rewrite E3 in H3. injection H3 as <- <-.
    rewrite E4 in H4. injection H4 as <- <-. rewrite E5 in H. discriminate. }
  split; [now left|]. split; [|reflexivity]. intros _.
  exists raw_data, s1, processed_data, s2, training_results, s3,
    evaluation_results, s4, s5.
  repeat split; assumption.
Qed.

(** X21.  A stage that raises ends the pipeline: when training raises
    after collection and preprocessing returned, [run_pipeline] returns the
    'error' dictionary with the message of the exception, and the state is
    the one the failed training left: the models are neither evaluated nor
    saved. *)
Theorem failed_training_saves_nothing (State : Type)
    (collect_data : MLPipeline.Stage State (list (string * DataFrame)))
    (preprocess_data : list (string * DataFrame) ->
                       MLPipeline.Stage State (list (string * DataFrame)))
    (train_models evaluate_models : list (string * DataFrame) ->
                                    MLPipeline.Stage State pyval)
    (save_models : MLPipeline.Stage State unit) (timestamp : string)
    (s s1 s2 s3 : State) (raw_data processed_data : list (string * DataFrame))
    (e : PyExc) :
  collect_data s = (inr raw_data, s1) ->
  preprocess_data raw_data s1 = (inr processed_data, s2) ->
  train_models processed_data s2 = (inl e, s3) ->
  MLPipeline.run_pipeline State collect_data preprocess_data train_models
    evaluate_models save_models timestamp s
  = ([ ("status", VStr "error"); ("error", VStr (exc_msg e));
       ("timestamp", VStr timestamp) ], s3) /\
  run_succeeds
    (PipelineReturns
       (fst (MLPipeline.run_pipeline State collect_data preprocess_data
               train_models evaluate_models save_models timestamp s))) = false.
Proof.
  intros H1 H2 H3. unfold MLPipeline.run_pipeline. rewrite H1, H2, H3.
  split; reflexivity.
Qed.

(** A run in which the state is the list of the stages that ran, latest
    first, and training raises. *)
Lemma failed_training_saves_nothing_witness :
  MLPipeline.run_pipeline (list string)
    (fun s => (inr [("transactions", mkDF 10 [])], "collect" :: s))
    (fun raw s => (inr raw, "preprocess" :: s))
    (fun _ s => (inl (mkExc "ValueError" "no training data"), "train" :: s))
    (fun _ s => (inr VNone, "evaluate" :: s))
    (fun s => (inr tt, "save" :: s))
    "2024-01-01T00:00:00" []
  = ([ ("status", VStr "error"); ("error", VStr "no training data");
       ("timestamp", VStr "2024-01-01T00:00:00") ],
     ["train"; "preprocess"; "collect"]).
Proof.
  apply (failed_training_saves_nothing (list string)
           (fun s => (inr [("transactions", mkDF 10 [])], "collect" :: s))
           (fun raw s => (inr raw, "preprocess" :: s))
           (fun _ s => (inl (mkExc "ValueError" "no training data"), "train" :: s))
           (fun _ s => (inr VNone, "evaluate" :: s))
           (fun s => (inr tt, "save" :: s))
           "2024-01-01T00:00:00" [] ["collect"] ["preprocess"; "collect"]
           ["train"; "preprocess"; "collect"]
           [("transactions", mkDF 10 [])] [("transactions", mkDF 10 [])]
           (mkExc "ValueError" "no training data"));
    reflexivity.
Defined.

(** ** The dashboard *)

Lemma dashboard_statuses_spec (names : list string) (w : World) :
  dashboard_statuses names w =
    (inr (map (fun name =>
                 (name, default "unknown" (truthy (redis_kv w !! status_key name))))
            names), w).
Proof.
  induction names as [|name names IH]; [reflexivity|].
  simpl. unfold bind, redis_get. now rewrite IH.
Qed.

(** X22.  The dashboard never raises and changes nothing but the log.  When
    the query for the recent records returns, it lists a status for each of
    the three models, the stored one or 'unknown' when none (or an empty
    one) is stored, and its list of alerts is always empty; when the query
    raises, the dashboard is the empty dictionary and the error is logged. *)
Theorem dashboard_is_total (recent : PyExc + list string) (w : World) :
  match recent with
  | inr rows =>
      get_monitoring_dashboard recent w =
        (inr (Some (mkDashboard rows
                      (map (fun name =>
                              (name, default "unknown"
                                       (truthy (redis_kv w !! status_key name))))
                         monitored_models)
                      [])), w)
  | inl e =>
      get_monitoring_dashboard recent w =
        (inr None,
         snd (log ERROR "Failed to get monitoring dashboard: {}" [exc_val e] w))
  end.
Proof.
  unfold get_monitoring_dashboard, try_except, bind, lift, ret, raise,
    _get_recent_alerts.
  destruct recent as [e|rows]; [reflexivity|].
  now rewrite dashboard_statuses_spec.
Qed.

(** ** One monitoring cycle *)

(** X23.  In a cycle whose training runs all succeed, the drain retrains
    everything the queue holds once monitoring is over, the jobs this
    cycle's monitoring queued included: if those payloads decode, the cycle
    ends with the queue empty after exactly one run of the pipeline per
    payload. *)
Theorem cycle_drains_what_monitoring_queued (env : Env) (w : World) :
  all_decode env (retraining_queue (snd (monitor_models env w))) ->
  (forall i, pipeline_runs w <= i -> run_succeeds (run_pipeline env i) = true) ->
  exists w',
    monitoring_cycle env
      (S (length (retraining_queue (snd (monitor_models env w))))) w = Some w' /\
    retraining_queue w' = [] /\
    pipeline_runs w'
      = pipeline_runs w + length (retraining_queue (snd (monitor_models env w))).
Proof.
  intros Hdec Hok.
  destruct (monitor_models_queue env w) as (results & _ & _ & _ & Hruns).
  unfold monitoring_cycle, _process_retraining_queue.
  set (w1 := snd (monitor_models env w)) in *.
  destruct (drain_terminates env (pipeline_runs w1)) with
    (k := length (retraining_queue w1) + (pipeline_runs w1 - pipeline_runs w1))
    (w := w1) as (n & w' & Hloop & Hempty & _ & Hruns' & Hn);
    [intros i Hi; apply Hok; lia | lia | exact Hdec |].
  rewrite failed_runs_none in Hn by (intros i Hi; apply Hok; lia).
  rewrite Nat.add_0_r in Hn. subst n.
  exists w'. rewrite Hloop. split; [reflexivity|]. split; [exact Hempty|].
  rewrite Hruns', Hruns. reflexivity.
Qed.

Lemma cycle_drains_what_monitoring_queued_witness :
  exists w',
    monitoring_cycle flagging_lab 2 world0 = Some w' /\
    retraining_queue w' = [] /\
    pipeline_runs w' = 1.
Proof.
  assert (Hq : retraining_queue (snd (monitor_models flagging_lab world0))
               = [py_repr price_job]) by (vm_compute; reflexivity).
  destruct (cycle_drains_what_monitoring_queued flagging_lab world0)
    as (w' & Hcycle & Hempty & Hruns).
  - rewrite Hq. repeat constructor. exists (VStr "price_prediction").
    split; [discriminate|]. intros w. eexists. split; reflexivity.
  - intros i _. reflexivity.
  - rewrite Hq in Hcycle, Hruns. exists w'. repeat split; assumption.
Defined.

(** ** Edge cases of the drift detector and of a training run *)

(** X24.  A training run never raises, whatever the pipeline does: it
    calls the pipeline exactly once and reports success exactly when the
    pipeline returned a dictionary whose 'status' is 'success'; a pipeline
    that raises, or whose result has no 'status', counts as a failed run.
    The queue and the key-value store are left as they were. *)
Theorem training_run_outcome (env : Env) (model_name : pyval) (w : World) :
  fst (_run_retraining env model_name w)
    = inr (run_succeeds (run_pipeline env (pipeline_runs w))) /\
  pipeline_calls (trace (snd (_run_retraining env model_name w)))
    = EvRunPipeline :: pipeline_calls (trace w) /\
  pipeline_runs (snd (_run_retraining env model_name w)) = S (pipeline_runs w) /\
  retraining_queue (snd (_run_retraining env model_name w)) = retraining_queue w /\
  redis_kv (snd (_run_retraining env model_name w)) = redis_kv w /\
  (forall e, run_pipeline env (pipeline_runs w) = PipelineRaises e ->
             fst (_run_retraining env model_name w) = inr false) /\
  (forall result, run_pipeline env (pipeline_runs w) = PipelineReturns result ->
                  assoc "status" result = None ->
                  fst (_run_retraining env model_name w) = inr false).
Proof.
  destruct (run_retraining_spec env model_name w) as (new & -> & Hnew).
  cbn [fst snd trace pipeline_runs retraining_queue redis_kv].
  split; [reflexivity|]. split; [now rewrite pipeline_calls_text|].
  split; [reflexivity|]. split; [reflexivity|]. split; [reflexivity|].
  split.
  - now intros e ->.
  - intros result -> Hnone. simpl. now rewrite Hnone.
Qed.

Lemma training_run_outcome_witness :
  fst (_run_retraining
         (lab [] (fun _ => PipelineRaises (mkExc "RuntimeError" "out of memory"))
            (fun _ => db_down) (fun _ _ => db_down))
         (VStr "price_prediction") world0) = inr false.
Proof.
  destruct (training_run_outcome
              (lab [] (fun _ => PipelineRaises (mkExc "RuntimeError" "out of memory"))
                 (fun _ => db_down) (fun _ _ => db_down))
              (VStr "price_prediction") world0)
    as (_ & _ & _ & _ & _ & Hraises & _).
  apply (Hraises (mkExc "RuntimeError" "out of memory")). reflexivity.
Defined.

(** X25.  The index of an empty array against any array is 0, either way
    round: the exception of the minimum of an empty array is swallowed. So
    is the index for a bin count of 0, where there is no bin to sum over. *)
Theorem psi_of_nothing_is_zero (np_log : Q -> Q) (sample : list Q) (bins : nat) :
  _calculate_psi np_log [] sample bins = 0%Q /\
  _calculate_psi np_log sample [] bins = 0%Q /\
  forall expected actual, _calculate_psi np_log expected actual 0 = 0%Q.
Proof.
  split; [reflexivity|]. split.
  - unfold _calculate_psi, psi_body. now destruct (Np.min sample).
  - intros expected actual. unfold _calculate_psi, psi_body.
    destruct (Np.min expected); simpl; [|reflexivity].
    destruct (Np.min actual); simpl; [|reflexivity].
    destruct (Np.max expected); simpl; [|reflexivity].
    destruct (Np.max actual); simpl; [|reflexivity].
    now destruct (Qeq_bool _ _).
Qed.

Lemma drifted_features_of_nothing (env : Env)
    (baseline_columns : list (string * list Q)) :
  drifted_features env (mkDF 0 []) baseline_columns = [].
Proof.
  unfold drifted_features.
  induction baseline_columns as [|column rest IH]; [reflexivity|].
  cbn [omap list_omap]. exact IH.
Qed.

(** X26.  When the query for the current features raises or returns no
    row, the drift check of the price model against a stored baseline
    reports no issue: without current statistics no feature is compared. *)
Theorem no_current_features_no_drift (env : Env) (w : World) (baseline : string)
    (baseline_stats : DataFrame) :
  truthy (redis_kv w !! baseline_key "price_prediction") = Some baseline ->
  read_json env baseline = inr baseline_stats ->
  ((exists e, fetch_features env "price_prediction" 7 = inl e) \/
   (exists df, fetch_features env "price_prediction" 7 = inr df /\
               df_empty df = true)) ->
  fst (_check_feature_drift env "price_prediction" w) = inr [].
Proof.
  intros Hb Hjson Hquery. unfold _check_feature_drift, bind, redis_get.
  rewrite Hb, Hjson.
  unfold _calculate_current_feature_stats, try_except, bind, lift, ret, raise,
    log, emit.
  destruct Hquery as [[e ->] | (df & -> & Hempty)]; cbv beta iota zeta.
  - now rewrite drift_loop_price, drifted_features_of_nothing.
  - now rewrite Hempty, drift_loop_price, drifted_features_of_nothing.
Qed.

Lemma no_current_features_no_drift_witness :
  fst (_check_feature_drift stale_lab "price_prediction" baselined_world) = inr [].
Proof.
  apply (no_current_features_no_drift stale_lab baselined_world "{}" baseline_frame).
  - vm_compute. reflexivity.
  - reflexivity.
  - left. eexists. reflexivity.
Defined.
